(** * Type inference and type coercion of Rhombus-AI's data processor

    Shallow embedding of
    - [src/backend/data_processor/services/infer_data_types.py]
      ([is_numeric_with_na], [is_boolean], [is_categorical],
       [convert_to_boolean], [infer_column_type],
       [infer_and_convert_data_types]),
    - [src/backend/data_processor/api/views.py] ([UpdateTypesView.post],
      [serialize_value], [ProcessFileView.post]) and
    - [src/backend/data_processor/api/serializers.py]
      ([validate_preview_data], [validate_columns]).

    A pandas [Series] is a [column]: its dtype and the Python objects it
    holds.  The pandas and dateutil primitives the code calls on single
    values (number parsing, date parsing, the [DataFrame] constructor) are
    kept abstract in the class [Pandas]; [pandas_demo] is one concrete
    instance used to evaluate the code on explicit inputs; [pd.read_csv]
    and [pd.read_excel] are kept abstract in [Readers] likewise. *)

From Stdlib Require Import Bool Arith ZArith QArith List Lia.
From Stdlib Require Import Strings.String Strings.Ascii Numbers.DecimalString.
Import ListNotations.
Open Scope string_scope.

(* ------------------------------------------------------------------ *)
(** ** Python strings (ASCII code points) *)

Module PyStr.

(** [str.isspace] restricted to ASCII: \t \n \v \f \r, \x1c-\x1f and space. *)
Definition is_space (c : ascii) : bool :=
  let n := nat_of_ascii c in
  (((9 <=? n) && (n <=? 13)) || ((28 <=? n) && (n <=? 32)))%nat.

Fixpoint lstrip (s : string) : string :=
  match s with
  | EmptyString => EmptyString
  | String c r => if is_space c then lstrip r else s
  end.

Fixpoint rev_str (s : string) : string :=
  match s with
  | EmptyString => EmptyString
  | String c r => rev_str r ++ String c EmptyString
  end.

Definition rstrip (s : string) : string := rev_str (lstrip (rev_str s)).

(** [str.strip()] *)
Definition strip (s : string) : string := rstrip (lstrip s).

(** [str.lower()] on ASCII letters. *)
Definition lower_char (c : ascii) : ascii :=
  let n := nat_of_ascii c in
  if ((65 <=? n) && (n <=? 90))%nat then ascii_of_nat (n + 32)%nat else c.

Fixpoint lower (s : string) : string :=
  match s with
  | EmptyString => EmptyString
  | String c r => String (lower_char c) (lower r)
  end.

Definition mem (s : string) (l : list string) : bool :=
  existsb (String.eqb s) l.

(** [str(i)] of a Python int. *)
Definition of_Z (z : Z) : string := NilEmpty.string_of_int (Z.to_int z).

Fixpoint zeros (n : nat) : string :=
  match n with O => EmptyString | S k => String "0" (zeros k) end.

Definition pad_left (k : nat) (s : string) : string :=
  zeros (k - String.length s)%nat ++ s.

End PyStr.

Definition dq : string := String (ascii_of_nat 34) EmptyString.

(* ------------------------------------------------------------------ *)
(** ** Numbers *)

(** A finite float written as a decimal: [mant / 10 ^ scale]. *)
Record dec := mkdec { mant : Z; scale : nat }.

Definition dec_of_Z (z : Z) : dec := mkdec z 0.

Definition dec_eqb (a b : dec) : bool :=
  (mant a * 10 ^ Z.of_nat (scale b) =? mant b * 10 ^ Z.of_nat (scale a))%Z.

(** [x % 1 == 0] *)
Definition dec_integral (d : dec) : bool :=
  (mant d mod 10 ^ Z.of_nat (scale d) =? 0)%Z.

(** Truncation, used on integral values only. *)
Definition dec_to_Z (d : dec) : Z := (mant d / 10 ^ Z.of_nat (scale d))%Z.

(** Drop trailing zeros of the mantissa. *)
Fixpoint dec_norm_aux (fuel : nat) (m : Z) (k : nat) : Z * nat :=
  match fuel, k with
  | S f, S k' => if (m mod 10 =? 0)%Z then dec_norm_aux f (m / 10)%Z k' else (m, k)
  | _, _ => (m, k)
  end.

(** [repr(float)] for values printed in positional notation (magnitude
    between 1e-4 and 1e16, where Python does not switch to exponents). *)
Definition float_repr (d : dec) : string :=
  let '(m, k) := dec_norm_aux (scale d) (mant d) (scale d) in
  let sign := if (m <? 0)%Z then "-" else "" in
  let a := Z.abs m in
  let p := (10 ^ Z.of_nat k)%Z in
  sign ++ PyStr.of_Z (a / p) ++ "." ++
    (match k with O => "0" | _ => PyStr.pad_left k (PyStr.of_Z (a mod p)) end).

Definition int64_min : Z := (- 2 ^ 63)%Z.
Definition int64_max : Z := (2 ^ 63 - 1)%Z.
Definition uint64_max : Z := (2 ^ 64 - 1)%Z.

Definition in_int64 (z : Z) : bool :=
  (- 2 ^ 63 <=? z)%Z && (z <? 2 ^ 63)%Z.

(** The float64 nearest to the integer [z] (53-bit significand, ties to
    even), as an integer: Python's [float(z)] and NumPy's int64/uint64 to
    float64 cast. *)
Definition round_f64 (z : Z) : Z :=
  let a := Z.abs z in
  let e := (Z.log2 a - 52)%Z in
  if (e <=? 0)%Z then z
  else
    let q := (a / 2 ^ e)%Z in
    let r := (a mod 2 ^ e)%Z in
    let h := (2 ^ (e - 1))%Z in
    let q' := if (r <? h)%Z then q
              else if (h <? r)%Z then (q + 1)%Z
              else if Z.even q then q else (q + 1)%Z in
    (Z.sgn z * (q' * 2 ^ e))%Z.

(** A float64 other than [nan]: finite, or [inf] / [-inf] ([neg]). *)
Inductive xfloat := XFin (d : dec) | XInf (neg : bool).

(** A number read from a string by [pd.to_numeric]: an integer literal,
    with the float64 [floatify] gives it, or a float. *)
Inductive num := NInt (z : Z) (f : xfloat) | NFloat (f : xfloat).

Definition num_float (n : num) : xfloat := match n with NInt _ f | NFloat f => f end.

(* ------------------------------------------------------------------ *)
(** ** Series and frames *)

(** The dtypes the code distinguishes: [object], [int64], [int32],
    [uint64], the nullable ["Int64"], [float64], [bool], the nullable
    ["boolean"], [datetime64[ns]] and [category]. *)
Inductive dtype :=
| DObject | DInt64 | DInt32 | DUInt64 | DNInt64 | DFloat64 | DBool | DBoolean
| DDatetime | DCategory.

Definition dtype_eqb (a b : dtype) : bool :=
  match a, b with
  | DObject, DObject | DInt64, DInt64 | DInt32, DInt32 | DUInt64, DUInt64
  | DNInt64, DNInt64 | DFloat64, DFloat64 | DBool, DBool | DBoolean, DBoolean
  | DDatetime, DDatetime | DCategory, DCategory => true
  | _, _ => false
  end.

(** The Python objects a series holds.  [CFloat] is a finite float and
    [CInf neg] is [inf] / [-inf]; [CTime] is a [Timestamp], kept as its
    [str]; [CNone], [CNaN], [CNA] and [CNaT] are [None], [nan], [pd.NA]
    and [pd.NaT]. *)
Inductive cell :=
| CStr (s : string)
| CInt (z : Z)
| CFloat (d : dec)
| CInf (neg : bool)
| CBool (b : bool)
| CTime (repr : string)
| CNone | CNaN | CNA | CNaT.

Definition cell_of_xfloat (f : xfloat) : cell :=
  match f with XFin d => CFloat d | XInf b => CInf b end.

(** [pd.isna] *)
Definition is_missing (v : cell) : bool :=
  match v with CNone | CNaN | CNA | CNaT => true | _ => false end.

Definition notna (v : cell) : bool := negb (is_missing v).

(** [str(x)] *)
Definition py_str (v : cell) : string :=
  match v with
  | CStr s => s
  | CInt z => PyStr.of_Z z
  | CFloat d => float_repr d
  | CInf false => "inf"
  | CInf true => "-inf"
  | CBool true => "True"
  | CBool false => "False"
  | CTime r => r
  | CNone => "None"
  | CNaN => "nan"
  | CNA => "<NA>"
  | CNaT => "NaT"
  end.

(** Python [==] between non-missing values, as used by [unique] and set
    membership: [bool], [int] and [float] compare by numeric value. *)
Definition num_of (v : cell) : option dec :=
  match v with
  | CInt z => Some (dec_of_Z z)
  | CFloat d => Some d
  | CBool b => Some (dec_of_Z (if b then 1 else 0)%Z)
  | _ => None
  end.

Definition py_eqb (a b : cell) : bool :=
  match num_of a, num_of b with
  | Some x, Some y => dec_eqb x y
  | _, _ =>
    match a, b with
    | CStr s, CStr t => String.eqb s t
    | CTime s, CTime t => String.eqb s t
    | CInf s, CInf t => Bool.eqb s t
    | _, _ => false
    end
  end.

Record column := mkcol { dtype_of : dtype; cells : list cell }.

(** [series.dropna()] *)
Definition dropna (l : list cell) : list cell := filter notna l.

(** [.unique()]: first occurrences, in order. *)
Fixpoint unique_aux (seen : list cell) (l : list cell) : list cell :=
  match l with
  | [] => []
  | x :: r =>
    if existsb (py_eqb x) seen then unique_aux seen r
    else x :: unique_aux (x :: seen) r
  end.

Definition unique (l : list cell) : list cell := unique_aux [] l.

(** A [DataFrame]: named columns in order. *)
Definition frame := list (string * column).

(** A JSON record of [preview_data]. *)
Definition record := list (string * cell).

(* ------------------------------------------------------------------ *)
(** ** Exceptions *)

Inductive py_exc :=
| ValueError (msg : string)
| TypeError (msg : string)
| KeyError (msg : string)
| OverflowError (msg : string).

(** [str(e)] *)
Definition exc_msg (e : py_exc) : string :=
  match e with ValueError m | TypeError m | KeyError m | OverflowError m => m end.

(** A computation that returns an [A] or raises. *)
Definition py (A : Type) : Type := (py_exc + A)%type.

Definition py_bind {A B} (c : py A) (k : A -> py B) : py B :=
  match c with inl e => inl e | inr x => k x end.

Declare Scope py_scope.
Notation "x <- c ;; k" := (py_bind c (fun x => k))
  (at level 61, c at next level, right associativity) : py_scope.
Open Scope py_scope.

(** Map a raising function over a list, stopping at the first raise. *)
Fixpoint py_map {A B} (f : A -> py B) (l : list A) : py (list B) :=
  match l with
  | [] => inr []
  | x :: r => y <- f x ;; ys <- py_map f r ;; inr (y :: ys)
  end.

(** [all(f(x) for x in l)]: stops at the first [False] or exception. *)
Fixpoint py_all {A} (f : A -> py bool) (l : list A) : py bool :=
  match l with
  | [] => inr true
  | x :: r => b <- f x ;; if b then py_all f r else inr false
  end.

(** Python's [float(z)] of an int: [OverflowError] beyond the float64
    range. *)
Definition int_to_float (z : Z) : py dec :=
  let r := round_f64 z in
  if (2 ^ 1024 <=? Z.abs r)%Z then inl (OverflowError "int too large to convert to float")
  else inr (dec_of_Z r).

(* ------------------------------------------------------------------ *)
(** ** pandas and dateutil primitives *)

(** The library functions the code calls, on one value at a time.
    - [to_numeric_str s] is the number [pd.to_numeric]'s parser
      ([floatify]) reads from a non-empty string: an integer literal
      ([NInt], with its float64 value) or a float ([NFloat], [inf]
      included; [floatify] never gives [nan]); [None]: it raises.
    - [timestamp_value] is the [int64] nanosecond count of a [Timestamp].
    - [dateutil_parse] is [dateutil.parser.parse]: it returns or raises.
    - [to_datetime_mixed] and [to_datetime_default] are [pd.to_datetime]
      with [format='mixed', dayfirst=False] and with its defaults, on one
      non-missing value ([inl msg] for the latter: it raises [ValueError]).
    - [DataFrame] is the [pd.DataFrame] constructor on a list of records. *)
Class Pandas := {
  to_numeric_str : string -> option num;
  timestamp_value : string -> Z;
  dateutil_parse : string -> py unit;
  to_datetime_mixed : cell -> py cell;
  to_datetime_default : cell -> string + cell;
  DataFrame : list record -> frame
}.

(* ------------------------------------------------------------------ *)
(** ** [pd.to_numeric] *)

Section ToNumeric.
Context `{P : Pandas}.

(** What the loop of [lib.maybe_convert_numeric] records for one value:
    a null, an integer with its float64 value, a float, a boolean. *)
Inductive seen := SNull | SInt (z : Z) (f : xfloat) | SFloat (f : xfloat) | SBool (b : bool).

(** One value of the loop of [lib.maybe_convert_numeric(values, set(),
    coerce_numeric=coerce)]: a string goes through [floatify]; with
    [coerce] a [ValueError] or [TypeError] makes the value null, and an
    integer literal outside [int64_min, uint64_max] is kept (it forces
    float64) instead of raising.  [float(z)] of a Python int may raise
    [OverflowError], which nothing catches. *)
Definition scan_value (coerce : bool) (v : cell) : py seen :=
  match v with
  | CNone | CNA | CNaN => inr SNull
  | CFloat d => inr (SFloat (XFin d))
  | CInf b => inr (SFloat (XInf b))
  | CBool b => inr (SBool b)
  | CInt z => f <- int_to_float z ;; inr (SInt z (XFin f))
  | CStr s =>
    if String.eqb s "" then inr SNull
    else match to_numeric_str s with
         | Some (NInt z f) =>
           if negb coerce && negb ((int64_min <=? z) && (z <=? uint64_max))%Z
           then inl (ValueError "Integer out of range.")
           else inr (SInt z f)
         | Some (NFloat f) => inr (SFloat f)
         | None =>
           if coerce then inr SNull
           else inl (ValueError ("Unable to parse string " ++ dq ++ s ++ dq))
         end
  | CTime _ | CNaT =>
    if coerce then inr SNull else inl (TypeError "Invalid object type")
  end.

Definition seen_null (x : seen) : bool := match x with SNull => true | _ => false end.
Definition seen_float (x : seen) : bool := match x with SFloat _ => true | _ => false end.
Definition seen_int (x : seen) : bool := match x with SInt _ _ => true | _ => false end.

(** [seen.uint_]: an integer above [int64_max]; [seen.sint_]: a negative
    integer; an integer outside [int64_min, uint64_max]. *)
Definition seen_uint (x : seen) : bool :=
  match x with SInt z _ => (int64_max <? z)%Z | _ => false end.
Definition seen_sint (x : seen) : bool :=
  match x with SInt z _ => (z <? 0)%Z | _ => false end.
Definition seen_out (x : seen) : bool :=
  match x with SInt z _ => negb ((int64_min <=? z) && (z <=? uint64_max))%Z | _ => false end.

(** The value in the [floats] array. *)
Definition float_of_seen (x : seen) : cell :=
  match x with
  | SNull => CNaN
  | SInt _ f | SFloat f => cell_of_xfloat f
  | SBool b => CFloat (dec_of_Z (if b then 1 else 0))
  end.

(** The value in the [ints] / [uints] array (ints and booleans only reach it). *)
Definition int_of_seen (x : seen) : cell :=
  match x with
  | SInt z _ => CInt z
  | SBool b => CInt (if b then 1 else 0)
  | SNull | SFloat _ => CNaN
  end.

(** The value in the [bools] array (booleans only reach it). *)
Definition bool_of_seen (x : seen) : cell :=
  match x with SBool b => CBool b | _ => CNA end.

Definition is_int_cell (v : cell) : bool := match v with CInt _ => true | _ => false end.

(** The fast path taken when the first value is an int:
    [values.astype('i8')] compared to [values]. *)
Definition i8_equal (v : cell) : bool :=
  match v with
  | CInt z => in_int64 z
  | CBool _ => true
  | CFloat d => dec_integral d && in_int64 (dec_to_Z d)
  | _ => false
  end.

Definition i8_value (v : cell) : cell :=
  match v with
  | CBool b => CInt (if b then 1 else 0)
  | CFloat d => CInt (dec_to_Z d)
  | _ => v
  end.

(** [lib.maybe_convert_numeric(values, set(), coerce_numeric=coerce)]:
    the array it returns, with its dtype; [DObject] is the input given
    back unconverted (an integer above [int64_max] together with a null or
    a negative integer, when not coercing). *)
Definition maybe_convert_numeric (coerce : bool) (values : list cell) : py column :=
  match values with
  | [] => inr (mkcol DInt64 [])
  | v0 :: _ =>
    if is_int_cell v0 && forallb i8_equal values then inr (mkcol DInt64 (map i8_value values))
    else
      vs <- py_map (scan_value coerce) values ;;
      let null := existsb seen_null vs in
      let uint := existsb seen_uint vs in
      let sint := existsb seen_sint vs in
      if uint && (null || sint) && negb coerce then inr (mkcol DObject values)
      else if null || existsb seen_float vs || existsb seen_out vs || (uint && sint) then
        inr (mkcol DFloat64 (map float_of_seen vs))
      else if existsb seen_int vs then
        inr (mkcol (if uint then DUInt64 else DInt64) (map int_of_seen vs))
      else inr (mkcol DBool (map bool_of_seen vs))
  end.

(** [pd.to_numeric(series, errors='coerce' if coerce else 'raise')]:
    numeric and masked dtypes are returned as they are, [datetime64[ns]]
    becomes its [int64] view ([NaT] is [int64_min]). *)
Definition to_numeric (coerce : bool) (series : column) : py column :=
  match dtype_of series with
  | DInt64 | DInt32 | DUInt64 | DNInt64 | DFloat64 | DBool | DBoolean => inr series
  | DDatetime =>
    inr (mkcol DInt64 (map (fun v => match v with
                                     | CTime r => CInt (timestamp_value r)
                                     | _ => CInt int64_min
                                     end) (cells series)))
  | DObject | DCategory => maybe_convert_numeric coerce (cells series)
  end.

(** The number the loop reads from a string when coercing; [None]: the
    string is empty or does not parse, and the value becomes null. *)
Definition coerce_str (s : string) : option num :=
  if String.eqb s "" then None else to_numeric_str s.

Definition seen_of_num (o : option num) : seen :=
  match o with
  | None => SNull
  | Some (NInt z f) => SInt z f
  | Some (NFloat f) => SFloat f
  end.

Definition cast_float_error : py_exc :=
  TypeError "cannot safely cast non-equivalent float64 to int64".

(** [.astype('Int64')] at one value of a float64 array: [nan] becomes
    [pd.NA]; a value that is not integral, is infinite or is outside the
    int64 range makes the cast raise. *)
Definition float_to_Int64 (v : cell) : py cell :=
  if is_missing v then inr CNA
  else match num_of v with
       | Some d => if dec_integral d && in_int64 (dec_to_Z d) then inr (CInt (dec_to_Z d))
                   else inl cast_float_error
       | None => inl cast_float_error
       end.

(** [series.astype('Int64')] on the result of [pd.to_numeric]. *)
Definition astype_Int64 (series : column) : py column :=
  match dtype_of series with
  | DNInt64 => inr series
  | DInt64 | DInt32 => inr (mkcol DNInt64 (cells series))
  | DUInt64 =>
    if forallb (fun v => match v with CInt z => (z <=? int64_max)%Z | _ => true end) (cells series)
    then inr (mkcol DNInt64 (cells series))
    else inl (TypeError "cannot safely cast non-equivalent uint64 to int64")
  | DBool | DBoolean =>
    inr (mkcol DNInt64 (map (fun v => match v with
                                      | CBool b => CInt (if b then 1 else 0)
                                      | _ => CNA
                                      end) (cells series)))
  | DFloat64 | DObject | DCategory | DDatetime =>
    l <- py_map float_to_Int64 (cells series) ;; inr (mkcol DNInt64 l)
  end.

End ToNumeric.

(* ------------------------------------------------------------------ *)
(** ** [infer_data_types.py] *)

Section Infer.
Context `{P : Pandas}.

Definition na_values : list string :=
  ["Not Available"; "NA"; "N/A"; "not available"; "n/a"; ""; " "; "-"].

(** [temp_series.str.strip().isin(na_values)] at one value. *)
Definition is_na_token (s : string) : bool := PyStr.mem (PyStr.strip s) na_values.

(** [numeric_series[numeric_mask] = ...; numeric_series[na_mask] = pd.NA]
    on the float64 series: a token's position holds [nan], the others the
    results in order. *)
Fixpoint fill_na (mask : list bool) (xs : list cell) : list cell :=
  match mask with
  | [] => []
  | true :: m => CNaN :: fill_na m xs
  | false :: m =>
    match xs with
    | x :: r => x :: fill_na m r
    | [] => CNaN :: fill_na m []
    end
  end.

(** A value of [pd.to_numeric]'s result stored into a float64 series. *)
Definition as_float64 (v : cell) : cell :=
  match v with
  | CInt z => CFloat (dec_of_Z (round_f64 z))
  | CBool b => CFloat (dec_of_Z (if b then 1 else 0))
  | _ => v
  end.

(** [x % 1 == 0] on a non-missing float64 value ([inf % 1] is [nan]). *)
Definition float_integral (v : cell) : bool :=
  match v with CFloat d => dec_integral d | _ => false end.

(** [is_numeric_with_na].  On strings [pd.to_numeric] raises only
    [ValueError], caught with [False, series]; a result it gives back
    unconverted (strings) makes [% 1] raise [TypeError], caught likewise;
    so does the [TypeError] of [pd.Series(numeric_series, dtype='Int64')]
    on a value outside the int64 range. *)
Definition is_numeric_with_na (series : column) : bool * column :=
  let temp_series := map py_str (cells series) in
  let na_mask := map is_na_token temp_series in
  match to_numeric false
          (mkcol DObject (map CStr (filter (fun s => negb (is_na_token s)) temp_series))) with
  | inl _ => (false, series)
  | inr r =>
    if dtype_eqb (dtype_of r) DObject then (false, series)
    else
      let numeric_series := fill_na na_mask (map as_float64 (cells r)) in
      let nn := filter notna numeric_series in
      if negb (match nn with [] => true | _ => false end) && forallb float_integral nn then
        match py_map float_to_Int64 numeric_series with
        | inl _ => (false, series)
        | inr l => (true, mkcol DNInt64 l)
        end
      else (true, mkcol DFloat64 numeric_series)
  end.

Definition is_int_dtype (t : dtype) : bool :=
  match t with DInt64 | DInt32 | DNInt64 => true | _ => false end.

(** Numerically [0] or [1]. *)
Definition is01 (v : cell) : bool :=
  match num_of v with
  | Some d => dec_eqb d (dec_of_Z 0) || dec_eqb d (dec_of_Z 1)
  | None => false
  end.

Definition bool_values : list string :=
  ["true"; "false"; "t"; "f"; "yes"; "no"; "y"; "n"; "1"; "0"].

(** [is_boolean] *)
Definition is_boolean (series : column) : bool :=
  if is_int_dtype (dtype_of series) then forallb is01 (dropna (cells series))
  else if dtype_eqb (dtype_of series) DObject then
    forallb (fun v => PyStr.mem (PyStr.lower (py_str v)) bool_values)
            (dropna (cells series))
  else false.

(** [bool_map.get(k)] for a string key [k]. *)
Definition bool_map_str (k : string) : option bool :=
  if PyStr.mem k ["true"; "t"; "yes"; "y"; "1"] then Some true
  else if PyStr.mem k ["false"; "f"; "no"; "n"; "0"] then Some false
  else None.

Definition of_opt_bool (o : option bool) : cell :=
  match o with Some b => CBool b | None => CNA end.

(** [series.map({1: True, 0: False})] at one value. *)
Definition map01 (v : cell) : cell :=
  match num_of v with
  | Some d => if dec_eqb d (dec_of_Z 1) then CBool true
              else if dec_eqb d (dec_of_Z 0) then CBool false else CNA
  | None => CNA
  end.

(** [convert_to_boolean] *)
Definition convert_to_boolean (series : column) : column :=
  if is_int_dtype (dtype_of series) || dtype_eqb (dtype_of series) DFloat64 then
    mkcol DBoolean (map map01 (cells series))
  else
    mkcol DBoolean
      (map (fun x => if notna x then of_opt_bool (bool_map_str (PyStr.lower (py_str x)))
                     else CNA) (cells series)).

(** [is_categorical(series, threshold)]; the float division
    [n_unique / n_total] is taken exactly. *)
Definition is_categorical_t (threshold : Q) (series : column) : bool :=
  match dtype_of series with
  | DCategory => true
  | _ =>
    (dtype_eqb (dtype_of series) DObject &&
       (let non_na_values := unique (dropna (cells series)) in
        (List.length non_na_values <=? 10)%nat &&
        forallb (fun x => String.length (py_str x) =? 1)%nat non_na_values))
    || (let n_unique := List.length (unique (dropna (cells series))) in
        let n_total := List.length (dropna (cells series)) in
        (0 <? n_total)%nat &&
        negb (Qle_bool threshold (inject_Z (Z.of_nat n_unique) / inject_Z (Z.of_nat n_total))) &&
        (10 <=? n_total)%nat)
  end.

Definition is_categorical (series : column) : bool := is_categorical_t (1 # 2) series.

(** [is_date(x)]: [parse] raising [ValueError] or [TypeError] gives
    [False]; any other exception (such as [OverflowError]) propagates. *)
Definition is_date (x : cell) : py bool :=
  match dateutil_parse (py_str x) with
  | inr _ => inr true
  | inl (ValueError _) | inl (TypeError _) => inr false
  | inl e => inl e
  end.

(** [series.dtype == 'object' and all(is_date(x) for x in series.dropna())] *)
Definition date_test (series : column) : py bool :=
  if dtype_eqb (dtype_of series) DObject then py_all is_date (dropna (cells series))
  else inr false.

(** [pd.to_datetime(series, format='mixed', dayfirst=False)] *)
Definition to_datetime_mixed_col (l : list cell) : py (list cell) :=
  py_map (fun x => if is_missing x then inr CNaT else to_datetime_mixed x) l.

(** [pd.to_datetime(series)] *)
Definition to_datetime_col (l : list cell) : py (list cell) :=
  py_map (fun x => if is_missing x then inr CNaT
                   else match to_datetime_default x with
                        | inl m => inl (ValueError m)
                        | inr y => inr y
                        end) l.

(** [series.str.strip()] at one value. *)
Definition str_strip (x : cell) : cell :=
  match x with
  | CStr s => CStr (PyStr.strip s)
  | _ => if is_missing x then x else CNaN
  end.

(** [infer_column_type] after its first statement
    ([if series.dtype == 'object': series = series.str.strip()]). *)
Definition infer_stripped (series : column) : py column :=
  if dtype_eqb (dtype_of series) DDatetime then inr series
  else if dtype_eqb (dtype_of series) DBool then inr series
  else if is_boolean series then inr (convert_to_boolean series)
  else let '(is_numeric, numeric_series) := is_numeric_with_na series in
  if is_numeric then inr numeric_series
  else
    b <- date_test series ;;
    if b then
      match to_datetime_mixed_col (cells series) with
      | inr l => inr (mkcol DDatetime l)
      | inl (ValueError _) => l <- to_datetime_col (cells series) ;; inr (mkcol DDatetime l)
      | inl e => inl e
      end
    else if is_categorical series then inr (mkcol DCategory (cells series))
    else inr series.

(** [infer_column_type] *)
Definition infer_column_type (series : column) : py column :=
  infer_stripped (if dtype_eqb (dtype_of series) DObject
                  then mkcol DObject (map str_strip (cells series)) else series).

(** [series.astype(str)] *)
Definition astype_str (series : column) : column :=
  mkcol DObject (map (fun v => CStr (py_str v)) (cells series)).

(** The loop body of [infer_and_convert_data_types] for one column. *)
Definition classify (series : column) : py column :=
  infer_column_type (if dtype_eqb (dtype_of series) DObject then astype_str series else series).

(** [infer_and_convert_data_types] *)
Definition infer_and_convert_data_types (df : frame) : py frame :=
  py_map (fun '(name, col) => c <- classify col ;; inr (name, c)) df.

End Infer.

(* ------------------------------------------------------------------ *)
(** ** [views.py]: [UpdateTypesView.post] *)

Section Views.
Context `{P : Pandas}.

(** The outcomes of [lib.infer_dtype(values, skipna=True)] that
    [BooleanArray]'s [coerce_to_array] tells apart. *)
Inductive inferred := IBoolean | IEmpty | IInteger | IFloating | IMixedIntFloat | IOther.

Definition is_bool_cell (v : cell) : bool := match v with CBool _ => true | _ => false end.
Definition is_float_cell (v : cell) : bool :=
  match v with CFloat _ | CInf _ => true | _ => false end.

Definition infer_dtype (l : list cell) : inferred :=
  match dropna l with
  | [] => IEmpty
  | l' =>
    if forallb is_bool_cell l' then IBoolean
    else if forallb is_int_cell l' then IInteger
    else if forallb is_float_cell l' then IFloating
    else if forallb (fun v => is_int_cell v || is_float_cell v) l' then IMixedIntFloat
    else IOther
  end.

Definition need_bool_like : py_exc := TypeError "Need to pass bool-like values".

(** A 0/1 number, or missing, as a ["boolean"] value. *)
Definition bool_of_01 (v : cell) : py cell :=
  if is_missing v then inr CNA
  else if is01 v then inr (map01 v) else inl need_bool_like.

(** [series.astype('boolean')] *)
Definition astype_boolean (series : column) : py column :=
  match dtype_of series with
  | DBoolean => inr series
  | DBool => inr (mkcol DBoolean (cells series))
  | DInt64 | DInt32 | DUInt64 | DNInt64 | DFloat64 =>
    l <- py_map bool_of_01 (cells series) ;; inr (mkcol DBoolean l)
  | DObject | DCategory =>
    match infer_dtype (cells series) with
    | IBoolean | IEmpty =>
      inr (mkcol DBoolean (map (fun v => if is_missing v then CNA else v) (cells series)))
    | IInteger | IFloating | IMixedIntFloat =>
      l <- py_map bool_of_01 (cells series) ;; inr (mkcol DBoolean l)
    | IOther => inl need_bool_like
    end
  | DDatetime => inl (TypeError "data type 'datetime64[ns]' not understood as boolean")
  end.

(** The body of the [try] for one [(column, new_type)] pair, on the
    column [df[column]]. *)
Definition convert_column (new_type : string) (series : column) : py column :=
  if String.eqb new_type "datetime64[ns]" then
    l <- to_datetime_col (cells series) ;; inr (mkcol DDatetime l)
  else if String.eqb new_type "category" then
    inr (mkcol DCategory (cells series))
  else if String.eqb new_type "int64" then
    r <- to_numeric true series ;; astype_Int64 r
  else if String.eqb new_type "float64" then
    to_numeric true series
  else if String.eqb new_type "bool" then
    astype_boolean series
  else inr (mkcol DObject (cells series)).

(** [df[column]] *)
Fixpoint frame_get (df : frame) (name : string) : option column :=
  match df with
  | [] => None
  | (n, c) :: r => if String.eqb n name then Some c else frame_get r name
  end.

(** [df[column] = c] on an existing column. *)
Fixpoint frame_set (df : frame) (name : string) (c : column) : frame :=
  match df with
  | [] => []
  | (n, c0) :: r => if String.eqb n name then (n, c) :: r else (n, c0) :: frame_set r name c
  end.

(** The 400 response of a failed conversion:
    [{'error': 'Failed to convert column "<column>" to type <new_type>',
      'details': str(e)}]. *)
Record conv_error := mkerr { err_column : string; err_type : string; details : string }.

Definition error_text (e : conv_error) : string :=
  "Failed to convert column " ++ dq ++ err_column e ++ dq ++ " to type " ++ err_type e.

(** The [for column, new_type in new_types.items()] loop. *)
Fixpoint convert_all (new_types : list (string * string)) (df : frame) : conv_error + frame :=
  match new_types with
  | [] => inr df
  | (column, new_type) :: rest =>
    match frame_get df column with
    | None => inl (mkerr column new_type ("'" ++ column ++ "'"))
    | Some c =>
      match convert_column new_type c with
      | inl e => inl (mkerr column new_type (exc_msg e))
      | inr c' => convert_all rest (frame_set df column c')
      end
    end
  end.

Inductive response :=
| Updated (df : frame)                  (* 200 with the converted frame *)
| MissingRequiredData                   (* 400 'Missing required data' *)
| ConversionFailed (e : conv_error).    (* 400 for one column *)

(** [UpdateTypesView.post] up to the rendering of the 200 response. *)
Definition post (file_data : list record) (new_types : list (string * string)) : response :=
  match file_data, new_types with
  | [], _ | _, [] => MissingRequiredData
  | _, _ =>
    match convert_all new_types (DataFrame file_data) with
    | inl e => ConversionFailed e
    | inr df => Updated df
    end
  end.

End Views.

(* ------------------------------------------------------------------ *)
(** ** [views.py]: [serialize_value] and [ProcessFileView.post] *)

(** JSON values of a response body. *)
Inductive json := JNull | JInt (z : Z) | JFloat (d : dec) | JStr (s : string).

(** The Python object [json.loads] gives back for a JSON value. *)
Definition json_cell (j : json) : cell :=
  match j with
  | JNull => CNone
  | JInt z => CInt z
  | JFloat d => CFloat d
  | JStr s => CStr s
  end.

(** [Timestamp.isoformat()] of a timestamp whose [str] is [r]: the space
    between date and time becomes a [T]. *)
Fixpoint isoformat (r : string) : string :=
  match r with
  | EmptyString => EmptyString
  | String c s => if Ascii.eqb c " "%char then String "T" s else String c (isoformat s)
  end.

(** [serialize_value(val)]: the local function of [ProcessFileView.post]
    and the method of [UpdateTypesView], which have the same body.  The
    tests [isinstance(val, (np.int64, np.int32))] and
    [isinstance(val, (np.float64, np.float32))] depend on whether a number
    reaches the function as a NumPy scalar or as a Python [int]/[float],
    which [cell] does not record: [numpy] says which.  A NumPy [inf] is
    caught by the [np.isinf] test and gives [None]. *)
Definition serialize_value (numpy : bool) (v : cell) : json :=
  if is_missing v then JNull
  else match v with
       | CTime r => JStr (isoformat r)
       | CInt z => if numpy then JInt z else JStr (PyStr.of_Z z)
       | CFloat d => if numpy then JFloat d else JStr (float_repr d)
       | CInf _ => if numpy then JNull else JStr (py_str v)
       | _ => JStr (py_str v)
       end.

(** [str(dtype)] *)
Definition dtype_name (t : dtype) : string :=
  match t with
  | DObject => "object"
  | DInt64 => "int64"
  | DInt32 => "int32"
  | DUInt64 => "uint64"
  | DNInt64 => "Int64"
  | DFloat64 => "float64"
  | DBool => "bool"
  | DBoolean => "boolean"
  | DDatetime => "datetime64[ns]"
  | DCategory => "category"
  end.

Fixpoint str_existsb (p : ascii -> bool) (s : string) : bool :=
  match s with
  | EmptyString => false
  | String c r => p c || str_existsb p r
  end.

Fixpoint rfind_from (c : ascii) (s : string) (i : nat) (acc : option nat) : option nat :=
  match s with
  | EmptyString => acc
  | String d r => rfind_from c r (S i) (if Ascii.eqb c d then Some i else acc)
  end.

(** [s.rfind(c)]; [None] for [-1]. *)
Definition rfind (c : ascii) (s : string) : option nat := rfind_from c s 0 None.

(** [posixpath.splitext(p)]: the extension starts at the last dot after
    the last separator, provided the base name has a character other than
    a dot before it. *)
Definition splitext (p : string) : string * string :=
  match rfind "."%char p with
  | None => (p, "")
  | Some dot =>
    let start := match rfind "/"%char p with Some s => S s | None => 0%nat end in
    if (start <=? dot)%nat &&
       str_existsb (fun c => negb (Ascii.eqb c "."%char)) (substring start (dot - start) p)
    then (substring 0 dot p, substring dot (String.length p - dot)%nat p)
    else (p, "")
  end.

(** An uploaded file: its [name] and the table it holds. *)
Record upload := mkupload { upload_name : string; upload_rows : list record }.

(** [pd.read_csv] and [pd.read_excel] on an uploaded file. *)
Class Readers := {
  read_csv : upload -> py frame;
  read_excel : upload -> py frame
}.

(** The names of a frame's columns with their numbers of values. *)
Definition frame_shape (df : frame) : list (string * nat) :=
  map (fun p => (fst p, List.length (cells (snd p)))) df.

(** The number of rows of a frame (its columns have equal lengths). *)
Definition frame_nrows (df : frame) : nat :=
  match df with [] => 0%nat | (_, c) :: _ => List.length (cells c) end.

(** Row [i] of [df.to_dict(orient='records')], serialized. *)
Definition frame_row (numpy : bool) (df : frame) (i : nat) : list (string * json) :=
  map (fun '(n, c) => (n, serialize_value numpy (nth i (cells c) CNaN))) df.

(** [[{k: serialize_value(v) for k, v in row.items()}
      for row in df.head().to_dict(orient='records')]] *)
Definition preview_rows (numpy : bool) (df : frame) : list (list (string * json)) :=
  map (frame_row numpy df) (seq 0 (Nat.min 5 (frame_nrows df)))%nat.

(** What [ProcessFileView.post] does with a request: a response with its
    status code, or an exception escaping the view. *)
Inductive upload_response :=
| UploadOk (column_types : list (string * string))
           (preview_data : list (list (string * json)))   (* 200 *)
| UploadBadRequest (error : string)                       (* 400 *)
| UploadServerError (error : string)                      (* 500 *)
| UploadRaises (exc : string).

Definition supported_extensions : list string := [".csv"; ".xlsx"; ".xls"].

(** Evaluating [status.HTTP_400_BAD_ERROR], a name [rest_framework.status]
    does not define, outside the [try]. *)
Definition status_error : string :=
  "AttributeError: module 'rest_framework.status' has no attribute 'HTTP_400_BAD_ERROR'".

Section Upload.
Context `{P : Pandas} `{R : Readers}.

(** [ProcessFileView.post] on [request.FILES.get('file')]; an uploaded
    file is falsy when its name is empty ([File.__bool__]). *)
Definition process_file (numpy : bool) (file_obj : option upload) : upload_response :=
  match file_obj with
  | None => UploadBadRequest "No file was uploaded."
  | Some f =>
    if String.eqb (upload_name f) "" then UploadBadRequest "No file was uploaded."
    else
    let file_extension := PyStr.lower (snd (splitext (upload_name f))) in
    if negb (PyStr.mem file_extension supported_extensions) then UploadRaises status_error
    else
      match (df <- (if String.eqb file_extension ".csv" then read_csv f else read_excel f) ;;
             infer_and_convert_data_types df) with
      | inl e => UploadServerError ("Error processing file: " ++ exc_msg e)
      | inr processed_df =>
        UploadOk (map (fun '(n, c) => (n, dtype_name (dtype_of c))) processed_df)
                 (preview_rows numpy processed_df)
      end
  end.

End Upload.

(* ------------------------------------------------------------------ *)
(** ** [serializers.py]: [FileProcessResponseSerializer]'s validators *)

(** [set(a) == set(b)] for the key lists of two dicts. *)
Definition same_key_set (a b : list string) : bool :=
  forallb (fun k => PyStr.mem k b) a && forallb (fun k => PyStr.mem k a) b.

(** [validate_preview_data(value)]: [inl msg] is the [ValidationError]. *)
Definition validate_preview_data (value : list (list (string * json)))
  : string + list (list (string * json)) :=
  match value with
  | [] => inl "Preview data cannot be empty"
  | r0 :: rest =>
    if forallb (fun row => same_key_set (map fst row) (map fst r0)) rest then inr value
    else inl "Inconsistent columns in preview data"
  end.

Definition valid_types : list string :=
  ["Int64"; "float64"; "datetime64[ns]"; "bool"; "category"; "object"].

(** The [ValidationError]s of [validate_columns]; the message of
    [InvalidDataType t] is ["Invalid data type: " ++ t ++ ...] followed by
    the set [valid_types] joined in its (unspecified) iteration order. *)
Inductive columns_error := ColumnsEmpty | InvalidDataType (t : string).

(** The [for column_info in value.values()] loop, on the values of
    [column_info.get('inferred_type')]: the first present, non-empty type
    outside [valid_types]. *)
Fixpoint first_invalid_type (infos : list (string * option string)) : option string :=
  match infos with
  | [] => None
  | (_, Some t) :: r =>
    if negb (String.eqb t "") && negb (PyStr.mem t valid_types) then Some t
    else first_invalid_type r
  | (_, None) :: r => first_invalid_type r
  end.

(** [validate_columns(value)], a column's info given by its
    [inferred_type] entry. *)
Definition validate_columns (value : list (string * option string))
  : columns_error + list (string * option string) :=
  match value with
  | [] => inl ColumnsEmpty
  | _ => match first_invalid_type value with
         | Some t => inl (InvalidDataType t)
         | None => inr value
         end
  end.

Module Demo.

Definition digit_of (c : ascii) : option Z :=
  let n := nat_of_ascii c in
  if ((48 <=? n) && (n <=? 57))%nat then Some (Z.of_nat (n - 48)) else None.

(** Leading digits of [s]: their value (accumulated onto [acc]), their
    number, and the rest of [s]. *)
Fixpoint scan_digits (s : string) (acc : Z) (cnt : nat) : Z * nat * string :=
  match s with
  | String c r =>
    match digit_of c with
    | Some d => scan_digits r (acc * 10 + d)%Z (S cnt)
    | None => (acc, cnt, s)
    end
  | EmptyString => (acc, cnt, EmptyString)
  end.

(** Decimal strings [[+-]digits[.digits]] with at least one digit. *)
Definition parse_decimal (s : string) : option dec :=
  let '(neg, s1) :=
    match s with
    | String c r =>
      if Ascii.eqb c "-"%char then (true, r)
      else if Ascii.eqb c "+"%char then (false, r) else (false, s)
    | EmptyString => (false, s)
    end in
  let sgn (m : Z) := if neg then (- m)%Z else m in
  let '(ip, n1, s2) := scan_digits s1 0 0 in
  match s2 with
  | EmptyString => if Nat.eqb n1 0 then None else Some (mkdec (sgn ip) 0)
  | String c s3 =>
    if Ascii.eqb c "."%char then
      let '(m, n2, s4) := scan_digits s3 ip 0 in
      match s4 with
      | EmptyString => if Nat.eqb (n1 + n2) 0 then None else Some (mkdec (sgn m) n2)
      | _ => None
      end
    else None
  end.

Fixpoint all_digits (s : string) : bool :=
  match s with
  | EmptyString => true
  | String c r => match digit_of c with Some _ => all_digits r | None => false end
  end.

(** ISO dates [YYYY-MM-DD]. *)
Definition iso_date (s : string) : bool :=
  Nat.eqb (String.length s) 10 &&
  all_digits (substring 0 4 s) && String.eqb (substring 4 1 s) "-" &&
  all_digits (substring 5 2 s) && String.eqb (substring 7 1 s) "-" &&
  all_digits (substring 8 2 s).

Definition datetime_default (v : cell) : string + cell :=
  match v with
  | CTime _ => inr v
  | CStr s => if iso_date s then inr (CTime (s ++ " 00:00:00"))
              else inl ("Unknown datetime string format, unable to parse: " ++ s)
  | _ => inl ("Given date string " ++ py_str v ++ " not likely a datetime")
  end.

(** [inf] spellings [floatify] accepts, case-insensitively. *)
Definition inf_spelling (s : string) : option bool :=
  let l := PyStr.lower s in
  if PyStr.mem l ["inf"; "+inf"; "infinity"; "+infinity"] then Some false
  else if PyStr.mem l ["-inf"; "-infinity"] then Some true
  else None.

(** Integer literals (no dot) with their float64 value, decimals, and
    [inf] spellings. *)
Definition parse_number (s : string) : option num :=
  match inf_spelling s with
  | Some b => Some (NFloat (XInf b))
  | None =>
    match parse_decimal s with
    | None => None
    | Some d =>
      if str_existsb (Ascii.eqb "."%char) s then Some (NFloat (XFin d))
      else Some (NInt (mant d) (XFin (dec_of_Z (round_f64 (mant d)))))
    end
  end.

Definition parse_iso (s : string) : py unit :=
  if iso_date s then inr tt else inl (ValueError ("Unknown string format: " ++ s)).

Definition datetime_mixed (v : cell) : py cell :=
  match datetime_default v with inl m => inl (ValueError m) | inr y => inr y end.

(** Days from 1970-01-01 to the proleptic Gregorian date [y-m-d]. *)
Definition days_from_civil (y m d : Z) : Z :=
  let y' := if (m <=? 2)%Z then (y - 1)%Z else y in
  let era := (y' / 400)%Z in
  let yoe := (y' - era * 400)%Z in
  let mp := ((m + 9) mod 12)%Z in
  let doy := ((153 * mp + 2) / 5 + d - 1)%Z in
  let doe := (yoe * 365 + yoe / 4 - yoe / 100 + doy)%Z in
  (era * 146097 + doe - 719468)%Z.

Definition digits_at (s : string) (i n : nat) : Z :=
  fst (fst (scan_digits (substring i n s) 0 0)).

(** Nanoseconds since the epoch of a timestamp written
    [YYYY-MM-DD HH:MM:SS]. *)
Definition timestamp_ns (r : string) : Z :=
  ((days_from_civil (digits_at r 0 4) (digits_at r 5 2) (digits_at r 8 2) * 86400
    + digits_at r 11 2 * 3600 + digits_at r 14 2 * 60 + digits_at r 17 2) * 10 ^ 9)%Z.

(** [pd.DataFrame(records)]: the keys of the first record, in order; a
    missing key is [NaN]; the dtype is inferred from the values, numbers
    with missing values giving float64. *)
Definition frame_dtype (l : list cell) : dtype :=
  if forallb (fun v => match v with CInt z => in_int64 z | _ => false end) l then DInt64
  else if forallb is_bool_cell l then DBool
  else if forallb (fun v => is_int_cell v || is_float_cell v || is_missing v) l &&
          existsb (fun v => is_int_cell v || is_float_cell v) l then DFloat64
  else DObject.

Definition frame_col (l : list cell) : column :=
  match frame_dtype l with
  | DFloat64 =>
    mkcol DFloat64 (map (fun v => match v with
                                  | CInt z => CFloat (dec_of_Z z)
                                  | CFloat _ | CInf _ => v
                                  | _ => CNaN
                                  end) l)
  | t => mkcol t l
  end.

Definition col_values (name : string) (rows : list record) : list cell :=
  map (fun r => match find (fun kv => String.eqb (fst kv) name) r with
                | Some (_, v) => v
                | None => CNaN
                end) rows.

Definition build_frame (rows : list record) : frame :=
  match rows with
  | [] => []
  | r0 :: _ => map (fun kv => (fst kv, frame_col (col_values (fst kv) rows))) r0
  end.

#[export] Instance pandas_demo : Pandas := {|
  to_numeric_str := parse_number;
  timestamp_value := timestamp_ns;
  dateutil_parse := parse_iso;
  to_datetime_mixed := datetime_mixed;
  to_datetime_default := datetime_default;
  DataFrame := build_frame
|}.

End Demo.

(** Readers returning the table an upload holds. *)
Module DemoFiles.

#[export] Instance readers_demo : Readers := {|
  read_csv f := inr (Demo.build_frame (upload_rows f));
  read_excel f := inr (Demo.build_frame (upload_rows f))
|}.

End DemoFiles.

Definition strs (l : list string) : list cell := map CStr l.

Example demo_num_1 : Demo.parse_decimal "007" = Some (mkdec 7 0).
Proof. reflexivity. Qed.
Example demo_num_2 : Demo.parse_decimal "-1.50" = Some (mkdec (-150) 2).
Proof. reflexivity. Qed.
Example demo_repr : float_repr (mkdec 150 2) = "1.5" /\ float_repr (mkdec 0 0) = "0.0".
Proof. split; reflexivity. Qed.
Example demo_strip : PyStr.strip "  a b " = "a b".
Proof. reflexivity. Qed.
Example demo_classify_1 :
  @classify Demo.pandas_demo (mkcol DObject (strs ["Not Available"; "1"; "2"; "3"]))
  = inr (mkcol DNInt64 [CNA; CInt 1; CInt 2; CInt 3]).
Proof. reflexivity. Qed.
Example demo_classify_2 :
  @classify Demo.pandas_demo (mkcol DObject (strs ["Yes"; "No"; "Yes"]))
  = inr (mkcol DBoolean [CBool true; CBool false; CBool true]).
Proof. reflexivity. Qed.
Example demo_classify_3 :
  @classify Demo.pandas_demo (mkcol DObject (strs ["2021-01-01"; "2021-02-02"]))
  = inr (mkcol DDatetime [CTime "2021-01-01 00:00:00"; CTime "2021-02-02 00:00:00"]).
Proof. reflexivity. Qed.

(* ------------------------------------------------------------------ *)
(** ** Frame lemmas *)

Lemma frame_get_set_other (df : frame) (n m : string) (c : column) :
  n <> m -> frame_get (frame_set df n c) m = frame_get df m.
Proof.
  intros Hnm. induction df as [|[k v] r IH]; simpl; [reflexivity|].
  destruct (String.eqb k n) eqn:Ekn; simpl.
  - apply String.eqb_eq in Ekn; subst k.
    destruct (String.eqb n m) eqn:E; [apply String.eqb_eq in E; contradiction|reflexivity].
  - destruct (String.eqb k m); [reflexivity|exact IH].
Qed.

Lemma frame_set_names (df : frame) (n : string) (c : column) :
  map fst (frame_set df n c) = map fst df.
Proof.
  induction df as [|[k v] r IH]; simpl; [reflexivity|].
  destruct (String.eqb k n); simpl; [reflexivity|now rewrite IH].
Qed.

(** [py_map] fails as soon as [f] fails on an element. *)
Lemma py_map_inl_exists {A B} (f : A -> py B) (l : list A) (x : A) e :
  In x l -> f x = inl e -> exists e', py_map f l = inl e' /\ exists y, In y l /\ f y = inl e'.
Proof.
  induction l as [|a r IH]; simpl; [tauto|].
  intros Hin Hfx.
  destruct (f a) as [ea|ya] eqn:Ea; simpl.
  - exists ea. split; [reflexivity|]. exists a. auto.
  - destruct Hin as [<-|Hin]; [congruence|].
    destruct (IH Hin Hfx) as [e' [Hr [y [Hy Hfy]]]].
    rewrite Hr. simpl. exists e'. split; [reflexivity|]. exists y. auto.
Qed.

Section ConversionFacts.
Context `{P : Pandas}.

(** The datetime conversion of a column with an unparsable value raises
    the [ValueError] of some unparsable value of that column. *)
Lemma datetime_column_fails (c : column) (x : cell) (msg : string) :
  In x (cells c) -> notna x = true -> to_datetime_default x = inl msg ->
  exists m, (exists y, In y (cells c) /\ notna y = true /\ to_datetime_default y = inl m) /\
            convert_column "datetime64[ns]" c = inl (ValueError m).
Proof.
  intros Hin Hna Hx. unfold convert_column. simpl. unfold to_datetime_col.
  set (f := fun x : cell => if is_missing x then (inr CNaT : py cell)
             else match to_datetime_default x with
                  | inl m => inl (ValueError m) | inr y => inr y end).
  assert (Hf : f x = inl (ValueError msg)).
  { unfold f. unfold notna in Hna. destruct (is_missing x); [discriminate|]. now rewrite Hx. }
  destruct (py_map_inl_exists f (cells c) x _ Hin Hf) as [e [He [y [Hy Hfy]]]].
  rewrite He. unfold f in Hfy.
  destruct (is_missing y) eqn:My; [discriminate|].
  destruct (to_datetime_default y) as [m|z] eqn:Ey; [|discriminate].
  injection Hfy as <-. exists m. split; [|reflexivity].
  exists y. unfold notna. rewrite My. auto.
Qed.

End ConversionFacts.

Section RequestFacts.
Context `{P : Pandas}.

(** A request whose mapping (with distinct keys) sends column [name] to a
    conversion that fails on that column never succeeds. *)
Lemma convert_all_fails_at (new_types : list (string * string)) (df : frame)
      (name ty : string) (c : column) (e : py_exc) :
  NoDup (map fst new_types) -> In (name, ty) new_types ->
  frame_get df name = Some c -> convert_column ty c = inl e ->
  exists err, convert_all new_types df = inl err.
Proof.
  revert df. induction new_types as [|[n t] rest IH]; intros df Hnd Hin Hget Hconv;
    simpl in *; [contradiction|].
  inversion Hnd as [|? ? Hnotin Hnd']; subst.
  destruct Hin as [Heq|Hin].
  - injection Heq as -> ->. rewrite Hget, Hconv. eauto.
  - assert (Hne : n <> name).
    { intros ->. apply Hnotin. now apply (in_map fst) in Hin. }
    destruct (frame_get df n) as [c0|]; [|eauto].
    destruct (convert_column t c0) as [e0|c0']; [eauto|].
    apply IH; auto. now rewrite frame_get_set_other.
Qed.

(** The loop leaves the column names and order of the frame as they are. *)
Lemma convert_all_names (new_types : list (string * string)) (df df' : frame) :
  convert_all new_types df = inr df' -> map fst df' = map fst df.
Proof.
  revert df. induction new_types as [|[n t] rest IH]; intros df H; simpl in H.
  - now injection H as <-.
  - destruct (frame_get df n); [|discriminate].
    destruct (convert_column t c); [discriminate|].
    rewrite (IH _ H). apply frame_set_names.
Qed.

(** The frame-effect of a successful loop. *)
Lemma convert_all_frame (new_types : list (string * string)) (df df' : frame) :
  convert_all new_types df = inr df' ->
  map fst df' = map fst df /\
  (forall name, ~ In name (map fst new_types) -> frame_get df' name = frame_get df name).
Proof.
  intros Hc. split; [exact (convert_all_names _ _ _ Hc)|].
  revert df Hc. induction new_types as [|[n t] rest IH]; intros df Hc name Hn; simpl in *.
  - now injection Hc as <-.
  - destruct (frame_get df n) as [c|]; [|discriminate].
    destruct (convert_column t c) as [e|c']; [discriminate|].
    rewrite (IH _ Hc name (fun Hin => Hn (or_intror Hin))).
    apply frame_get_set_other. intros ->. apply Hn. now left.
Qed.

End RequestFacts.

(* ------------------------------------------------------------------ *)
(** ** Lists and [py_map] *)

Lemma py_map_length {A B} (f : A -> py B) (l : list A) (l' : list B) :
  py_map f l = inr l' -> List.length l' = List.length l.
Proof.
  revert l'. induction l as [|x r IH]; intros l' H; simpl in H.
  - now injection H as <-.
  - destruct (f x); [discriminate|]. simpl in H.
    destruct (py_map f r) eqn:Er; [discriminate|]. injection H as <-.
    simpl. now rewrite (IH _ eq_refl).
Qed.

Lemma py_map_inl_in {A B} (f : A -> py B) (l : list A) e :
  py_map f l = inl e -> exists x, In x l /\ f x = inl e.
Proof.
  induction l as [|x r IH]; simpl; [discriminate|].
  destruct (f x) as [ex|y] eqn:Ex; simpl.
  - intros H. injection H as <-. eauto.
  - destruct (py_map f r); [|discriminate]. intros H.
    destruct (IH H) as [z [Hz Hfz]]. eauto.
Qed.

Lemma py_map_map {A B C} (f : B -> py C) (g : A -> B) (l : list A) :
  py_map f (map g l) = py_map (fun x => f (g x)) l.
Proof. induction l as [|x r IH]; simpl; [reflexivity|]. now rewrite IH. Qed.

Lemma py_map_ext_inr {A B} (f : A -> py B) (g : A -> B) (l : list A) :
  (forall x, In x l -> f x = inr (g x)) -> py_map f l = inr (map g l).
Proof.
  induction l as [|x r IH]; intros H; simpl; [reflexivity|].
  rewrite (H x (or_introl eq_refl)). simpl.
  rewrite IH; [reflexivity|]. intros y Hy. apply H. now right.
Qed.

Lemma py_map_Forall2 {A B} (f : A -> py B) (l : list A) (l' : list B) :
  py_map f l = inr l' -> Forall2 (fun x y => f x = inr y) l l'.
Proof.
  revert l'. induction l as [|x r IH]; intros l' H; simpl in H.
  - injection H as <-. constructor.
  - destruct (f x) as [e|y] eqn:Ex; [discriminate|]. simpl in H.
    destruct (py_map f r) as [e|ys] eqn:Er; [discriminate|]. injection H as <-.
    constructor; [exact Ex|exact (IH _ eq_refl)].
Qed.

Lemma Forall2_map_r {A B C} (R : A -> C -> Prop) (f : B -> C) (l : list A) (m : list B) :
  Forall2 (fun a b => R a (f b)) l m -> Forall2 R l (map f m).
Proof. induction 1; simpl; constructor; auto. Qed.

Lemma Forall2_map_l {A B C} (R : C -> B -> Prop) (f : A -> C) (l : list A) (m : list B) :
  Forall2 R (map f l) m -> Forall2 (fun a b => R (f a) b) l m.
Proof.
  revert m. induction l as [|a l IH]; intros m H; inversion H; subst; constructor; auto.
Qed.

Lemma Forall2_self {A B} (R : A -> B -> Prop) (g : A -> B) (l : list A) :
  (forall x, In x l -> R x (g x)) -> Forall2 R l (map g l).
Proof.
  induction l as [|x r IH]; intros H; simpl; constructor.
  - apply H. now left.
  - apply IH. intros y Hy. apply H. now right.
Qed.

Lemma Forall2_compose {A B C} (R1 : A -> B -> Prop) (R2 : B -> C -> Prop)
      (R3 : A -> C -> Prop) (a : list A) (b : list B) (c : list C) :
  (forall x y z, R1 x y -> R2 y z -> R3 x z) ->
  Forall2 R1 a b -> Forall2 R2 b c -> Forall2 R3 a c.
Proof.
  intros HR H1. revert c. induction H1 as [|x y a b Hxy _ IH]; intros c H2;
    inversion H2; subst; constructor; eauto.
Qed.

Lemma Forall2_in_r {A B} (R : A -> B -> Prop) (a : list A) (b : list B) (y : B) :
  Forall2 R a b -> In y b -> exists x, In x a /\ R x y.
Proof.
  induction 1 as [|x y' a b Hxy _ IH]; simpl; [tauto|].
  intros [<-|Hy]; [eauto|]. destruct (IH Hy) as [x' [Hx' Hr]]. eauto.
Qed.

Lemma existsb_false_in {A} (p : A -> bool) (l : list A) (x : A) :
  existsb p l = false -> In x l -> p x = false.
Proof.
  intros H Hx. destruct (p x) eqn:E; [|reflexivity].
  assert (existsb p l = true) by (apply existsb_exists; eauto). congruence.
Qed.

Lemma existsb_false_all {A} (p : A -> bool) (l : list A) :
  (forall x, In x l -> p x = false) -> existsb p l = false.
Proof.
  induction l as [|x r IH]; intros H; simpl; [reflexivity|].
  rewrite (H x (or_introl eq_refl)). apply IH. intros y Hy. apply H. now right.
Qed.

Lemma mem_In (s : string) (l : list string) : PyStr.mem s l = true <-> In s l.
Proof.
  unfold PyStr.mem. rewrite existsb_exists. split.
  - intros [x [Hx He]]. apply String.eqb_eq in He. now subst.
  - intros Hs. exists s. split; [exact Hs|]. apply String.eqb_refl.
Qed.

Lemma dtype_eqb_true (a b : dtype) : dtype_eqb a b = true -> a = b.
Proof. destruct a, b; simpl; congruence. Qed.

Lemma dec_of_Z_facts (z : Z) :
  dec_integral (dec_of_Z z) = true /\ dec_to_Z (dec_of_Z z) = z.
Proof.
  unfold dec_integral, dec_to_Z, dec_of_Z. simpl.
  rewrite Z.mod_1_r, Z.div_1_r. split; reflexivity.
Qed.

(** Integers of magnitude at most [2^53] are float64 values. *)
Lemma round_f64_small (z : Z) : (Z.abs z <= 2 ^ 53)%Z -> round_f64 z = z.
Proof.
  intros Hz. destruct (Z.eq_dec (Z.abs z) (2 ^ 53)) as [Ha|Ha].
  - destruct (Z.abs_spec z) as [[_ Hs]|[_ Hs]]; rewrite Hs in Ha.
    + subst z. reflexivity.
    + assert (z = - 2 ^ 53)%Z as -> by lia. reflexivity.
  - unfold round_f64.
    assert (He : (Z.log2 (Z.abs z) - 52 <= 0)%Z).
    { destruct (Z.eq_dec (Z.abs z) 0) as [H0|H0]; [rewrite H0; simpl; lia|].
      assert (Z.log2 (Z.abs z) < 53)%Z; [|lia].
      apply Z.log2_lt_pow2; lia. }
    cbv zeta. apply Z.leb_le in He. now rewrite He.
Qed.

Lemma in_int64_small (z : Z) : (Z.abs z <= 2 ^ 53)%Z -> in_int64 z = true.
Proof.
  intros Hz. unfold in_int64. apply andb_true_intro. split.
  - apply Z.leb_le. lia.
  - apply Z.ltb_lt. lia.
Qed.

(* ------------------------------------------------------------------ *)
(** ** [pd.to_numeric] and [astype('Int64')] *)

Section NumericFacts.
Context `{P : Pandas}.

Lemma scan_coerce_str (s : string) :
  scan_value true (CStr s) = inr (seen_of_num (coerce_str s)).
Proof.
  unfold scan_value, coerce_str. destruct (String.eqb s ""); [reflexivity|].
  destruct (to_numeric_str s) as [[z f|f]|]; reflexivity.
Qed.

Lemma py_map_scan_strs (l : list string) :
  py_map (scan_value true) (strs l) = inr (map (fun s => seen_of_num (coerce_str s)) l).
Proof.
  unfold strs. rewrite py_map_map. apply py_map_ext_inr. intros s _. apply scan_coerce_str.
Qed.

Lemma seen_of_num_not_bool (o : option num) (b : bool) : seen_of_num o <> SBool b.
Proof. destruct o as [[z f|f]|]; discriminate. Qed.

Lemma float_of_seen_num (o : option num) :
  float_of_seen (seen_of_num o)
  = match o with Some n => cell_of_xfloat (num_float n) | None => CNaN end.
Proof. destruct o as [[z f|f]|]; reflexivity. Qed.

Lemma uint_not_castable (vs : list seen) :
  existsb seen_uint vs = true ->
  forallb (fun v => match v with CInt z => (z <=? int64_max)%Z | _ => true end)
          (map int_of_seen vs) = false.
Proof.
  induction vs as [|x r IH]; simpl; [discriminate|].
  intros H. apply orb_true_iff in H as [H|H].
  - destruct x as [|z f|f|b]; try discriminate. simpl in H |- *.
    apply Z.ltb_lt in H. destruct (Z.leb_spec z int64_max); [lia|reflexivity].
  - rewrite (IH H). apply andb_false_r.
Qed.

(** The int64 conversion of an object column whose first value is not an
    int and that holds no boolean, by the values the loop records: the
    float64 path (then [astype('Int64')] value by value), the uint64 cast
    error, or the int64 values. *)
Lemma convert_int64_cases (l : list cell) (vs : list seen) :
  match l with [] => True | v0 :: _ => is_int_cell v0 = false end ->
  py_map (scan_value true) l = inr vs ->
  (forall b, ~ In (SBool b) vs) ->
  convert_column "int64" (mkcol DObject l) =
    if existsb seen_null vs || existsb seen_float vs || existsb seen_out vs ||
       (existsb seen_uint vs && existsb seen_sint vs)
    then (r <- py_map float_to_Int64 (map float_of_seen vs) ;; inr (mkcol DNInt64 r))
    else if existsb seen_uint vs
    then inl (TypeError "cannot safely cast non-equivalent uint64 to int64")
    else inr (mkcol DNInt64 (map int_of_seen vs)).
Proof.
  intros Hfirst Hscan Hnb. unfold convert_column. simpl.
  unfold to_numeric. simpl.
  destruct l as [|v0 l'].
  - simpl in Hscan. injection Hscan as <-. reflexivity.
  - unfold maybe_convert_numeric. rewrite Hfirst. cbn [andb]. rewrite Hscan. cbn [py_bind].
    rewrite andb_false_r.
    destruct (existsb seen_null vs || existsb seen_float vs || existsb seen_out vs ||
              (existsb seen_uint vs && existsb seen_sint vs)) eqn:E1; [reflexivity|].
    destruct (existsb seen_int vs) eqn:E2.
    + destruct (existsb seen_uint vs) eqn:E3; cbn [py_bind astype_Int64 dtype_of cells].
      * now rewrite (uint_not_castable vs E3).
      * reflexivity.
    + exfalso. pose proof (py_map_length _ _ _ Hscan) as Hl.
      destruct vs as [|x r]; [discriminate|].
      destruct x as [|z f|f|b]; simpl in E1, E2.
      * discriminate.
      * discriminate.
      * rewrite orb_true_r in E1. discriminate.
      * exact (Hnb b (or_introl eq_refl)).
Qed.

Lemma convert_int64_strs (l : list string) :
  let vs := map (fun s => seen_of_num (coerce_str s)) l in
  convert_column "int64" (mkcol DObject (strs l)) =
    if existsb seen_null vs || existsb seen_float vs || existsb seen_out vs ||
       (existsb seen_uint vs && existsb seen_sint vs)
    then (r <- py_map float_to_Int64 (map float_of_seen vs) ;; inr (mkcol DNInt64 r))
    else if existsb seen_uint vs
    then inl (TypeError "cannot safely cast non-equivalent uint64 to int64")
    else inr (mkcol DNInt64 (map int_of_seen vs)).
Proof.
  intros vs. apply convert_int64_cases.
  - destruct l; simpl; auto.
  - apply py_map_scan_strs.
  - intros b Hb. unfold vs in Hb. apply in_map_iff in Hb as [s [Hs _]].
    exact (seen_of_num_not_bool _ _ Hs).
Qed.

(** [astype('Int64')] of one float64 value that went through. *)
Lemma float_to_Int64_num (o : option num) (v : cell) :
  float_to_Int64 (float_of_seen (seen_of_num o)) = inr v ->
  (o = None /\ v = CNA) \/
  (exists n d, o = Some n /\ num_float n = XFin d /\ dec_integral d = true /\
               in_int64 (dec_to_Z d) = true /\ v = CInt (dec_to_Z d)).
Proof.
  rewrite float_of_seen_num. intros H. destruct o as [n|].
  - right. destruct (num_float n) as [d|b] eqn:Ef; unfold float_to_Int64 in H; simpl in H.
    + destruct (dec_integral d && in_int64 (dec_to_Z d)) eqn:Ei; [|discriminate].
      apply andb_prop in Ei as [Ei1 Ei2]. injection H as <-. eauto 10.
    + discriminate.
  - injection H as <-. left. auto.
Qed.

Lemma float_to_Int64_missing (v w : cell) :
  float_to_Int64 v = inr w -> is_missing w = is_missing v.
Proof.
  unfold float_to_Int64. destruct (is_missing v) eqn:E.
  - intros H. now injection H as <-.
  - destruct (num_of v) as [d|]; [|discriminate].
    destruct (_ && _); [|discriminate]. intros H. now injection H as <-.
Qed.

Lemma astype_Int64_dtype (c c' : column) :
  astype_Int64 c = inr c' -> dtype_of c' = DNInt64.
Proof.
  unfold astype_Int64. intros H.
  destruct (dtype_of c) eqn:Ed;
    try (injection H as <-; first [exact Ed|reflexivity]);
    try (unfold py_bind in H; destruct (py_map float_to_Int64 (cells c)); [discriminate|];
         injection H as <-; reflexivity).
  destruct (forallb _ _); [injection H as <-; reflexivity|discriminate].
Qed.

Lemma astype_Int64_length (c c' : column) :
  astype_Int64 c = inr c' -> List.length (cells c') = List.length (cells c).
Proof.
  unfold astype_Int64. intros H.
  destruct (dtype_of c);
    try (injection H as <-; simpl; first [reflexivity|apply length_map]);
    try (unfold py_bind in H; destruct (py_map float_to_Int64 (cells c)) as [|l] eqn:E;
         [discriminate|]; injection H as <-; exact (py_map_length _ _ _ E)).
  destruct (forallb _ _); [injection H as <-; reflexivity|discriminate].
Qed.

Lemma maybe_convert_length (coerce : bool) (l : list cell) (c : column) :
  maybe_convert_numeric coerce l = inr c -> List.length (cells c) = List.length l.
Proof.
  unfold maybe_convert_numeric. destruct l as [|v0 l'].
  { intros H. now injection H as <-. }
  destruct (is_int_cell v0 && forallb i8_equal (v0 :: l')).
  { intros H. injection H as <-. simpl. now rewrite length_map. }
  destruct (py_map (scan_value coerce) (v0 :: l')) as [e|vs] eqn:Evs; [discriminate|].
  cbn [py_bind]. pose proof (py_map_length _ _ _ Evs) as Hl.
  destruct (_ && _ && _); [intros H; now injection H as <-|].
  destruct (_ || _ || _ || _); [intros H; injection H as <-; simpl; now rewrite length_map|].
  destruct (existsb seen_int vs); intros H; injection H as <-; simpl; now rewrite length_map.
Qed.

Lemma to_numeric_length (coerce : bool) (c c' : column) :
  to_numeric coerce c = inr c' -> List.length (cells c') = List.length (cells c).
Proof.
  unfold to_numeric. intros H.
  destruct (dtype_of c);
    try (injection H as <-; simpl; first [reflexivity|apply length_map]);
    exact (maybe_convert_length _ _ _ H).
Qed.

(** [pd.to_numeric(errors='coerce')] gives a numeric dtype, and applied
    again to its result gives it back. *)
Lemma to_numeric_coerce_idem (c c' : column) :
  to_numeric true c = inr c' -> to_numeric true c' = inr c'.
Proof.
  intros H. unfold to_numeric at 1.
  enough (Hd : dtype_of c' = DInt64 \/ dtype_of c' = DInt32 \/ dtype_of c' = DUInt64 \/
               dtype_of c' = DNInt64 \/ dtype_of c' = DFloat64 \/ dtype_of c' = DBool \/
               dtype_of c' = DBoolean)
    by (destruct Hd as [E|[E|[E|[E|[E|[E|E]]]]]]; now rewrite E).
  unfold to_numeric in H. destruct (dtype_of c) eqn:Ed;
    try (injection H as <-; rewrite Ed; tauto);
    try (injection H as <-; simpl; tauto);
    (unfold maybe_convert_numeric in H; destruct (cells c) as [|v0 l'];
     [injection H as <-; simpl; tauto|];
     destruct (is_int_cell v0 && forallb i8_equal (v0 :: l'));
     [injection H as <-; simpl; tauto|];
     destruct (py_map (scan_value true) (v0 :: l')) as [e|vs]; [discriminate|];
     cbn [py_bind] in H; rewrite andb_false_r in H;
     destruct (_ || _ || _ || _); [injection H as <-; simpl; tauto|];
     destruct (existsb seen_int vs);
     [destruct (existsb seen_uint vs)|]; injection H as <-; simpl; tauto).
Qed.

End NumericFacts.

(* ------------------------------------------------------------------ *)
(** ** [is_numeric_with_na] *)

Lemma na_value_facts (x : string) :
  In x na_values ->
  PyStr.mem (PyStr.strip x) na_values = true /\ PyStr.mem (PyStr.lower x) bool_values = false.
Proof.
  unfold na_values. simpl.
  intros H; repeat (destruct H as [<-|H]; [split; reflexivity|]); contradiction.
Qed.

Lemma na_token_nonempty (s : string) : is_na_token s = false -> s <> "".
Proof. intros H E. subst s. vm_compute in H. discriminate. Qed.

Lemma bool_map_total (k : string) :
  PyStr.mem k bool_values = true -> exists b, bool_map_str k = Some b.
Proof.
  intros H. apply mem_In in H. unfold bool_values in H.
  repeat (destruct H as [<-|H]; [eexists; reflexivity|]). contradiction.
Qed.

Lemma fill_na_length (m : list bool) (xs : list cell) :
  List.length (fill_na m xs) = List.length m.
Proof.
  revert xs. induction m as [|[|] m IH]; intros xs; simpl; [reflexivity|now rewrite IH|].
  destruct xs; simpl; now rewrite IH.
Qed.

(** Where the mask is set [fill_na] puts a missing value, elsewhere the
    next result, which is not missing. *)
Lemma fill_na_missing (m : list bool) (xs : list cell) :
  List.length xs = List.length (filter negb m) -> forallb notna xs = true ->
  Forall2 (fun b w => is_missing w = b) m (fill_na m xs).
Proof.
  revert xs. induction m as [|[|] m IH]; intros xs Hl Hn; simpl.
  - constructor.
  - constructor; [reflexivity|]. apply IH; assumption.
  - destruct xs as [|x r]; simpl in Hl; [discriminate|]. simpl in Hn.
    apply andb_prop in Hn as [Hx Hr]. constructor.
    + unfold notna in Hx. now destruct (is_missing x).
    + apply IH; [lia|exact Hr].
Qed.

Lemma fill_na_filter {A} (p : A -> bool) (g : A -> cell) (l : list A) :
  fill_na (map p l) (map g (filter (fun x => negb (p x)) l))
  = map (fun x => if p x then CNaN else g x) l.
Proof. induction l as [|x r IH]; simpl; [reflexivity|]. destruct (p x); simpl; now rewrite IH. Qed.

Lemma filter_negb_map {A} (p : A -> bool) (l : list A) :
  List.length (filter (fun x => negb (p x)) l) = List.length (filter negb (map p l)).
Proof. induction l as [|x r IH]; simpl; [reflexivity|]. destruct (p x); simpl; now rewrite IH. Qed.

Lemma as_float64_notna (v : cell) : notna (as_float64 v) = notna v.
Proof. destruct v; reflexivity. Qed.

Lemma notna_xfloat (f : xfloat) : notna (cell_of_xfloat f) = true.
Proof. destruct f; reflexivity. Qed.

Section InferFacts.
Context `{P : Pandas}.

Lemma mcn_inl (coerce : bool) (l : list cell) (e : py_exc) :
  match l with [] => False | v0 :: _ => is_int_cell v0 = false end ->
  py_map (scan_value coerce) l = inl e -> maybe_convert_numeric coerce l = inl e.
Proof.
  destruct l as [|v0 l']; [contradiction|]. intros H0 H.
  unfold maybe_convert_numeric. rewrite H0. cbn [andb]. now rewrite H.
Qed.

Lemma scan_raise_str (s : string) (x : seen) :
  s <> "" -> scan_value false (CStr s) = inr x ->
  (exists z f, to_numeric_str s = Some (NInt z f) /\ x = SInt z f) \/
  (exists f, to_numeric_str s = Some (NFloat f) /\ x = SFloat f).
Proof.
  intros Hne H. unfold scan_value in H. apply String.eqb_neq in Hne. rewrite Hne in H.
  destruct (to_numeric_str s) as [[z f|f]|].
  - destruct ((int64_min <=? z) && (z <=? uint64_max))%Z; cbn [negb andb] in H; [|discriminate].
    injection H as <-. left. eauto.
  - injection H as <-. right. eauto.
  - discriminate.
Qed.

Lemma scan_raise_int (s : string) (z : Z) (f : xfloat) :
  s <> "" -> to_numeric_str s = Some (NInt z f) -> (Z.abs z <= 2 ^ 53)%Z ->
  scan_value false (CStr s) = inr (SInt z f).
Proof.
  intros Hne Hs Hz. unfold scan_value. apply String.eqb_neq in Hne. rewrite Hne, Hs.
  rewrite (proj2 (Z.leb_le int64_min z)) by (unfold int64_min; lia).
  rewrite (proj2 (Z.leb_le z uint64_max)) by (unfold uint64_max; lia).
  reflexivity.
Qed.

(** [pd.to_numeric] without coercion, on non-empty strings, gives one
    non-missing value per string. *)
Lemma mcn_raise_strs (ns : list string) (r : column) :
  (forall s, In s ns -> s <> "") ->
  maybe_convert_numeric false (map CStr ns) = inr r ->
  List.length (cells r) = List.length ns /\ forallb notna (cells r) = true.
Proof.
  intros Hne H. split; [rewrite (maybe_convert_length _ _ _ H); apply length_map|].
  destruct ns as [|s0 ns']; [now injection H as <-|].
  unfold maybe_convert_numeric in H. cbn [map is_int_cell andb] in H.
  destruct (py_map (scan_value false) (CStr s0 :: map CStr ns')) as [e|vs] eqn:Evs;
    [discriminate|].
  cbn [py_bind] in H.
  assert (Hsh : forall x, In x vs -> (exists z f, x = SInt z f) \/ exists f, x = SFloat f).
  { intros x Hx.
    destruct (Forall2_in_r _ _ _ _ (py_map_Forall2 _ _ _ Evs) Hx) as [y [Hy Hyx]].
    change (CStr s0 :: map CStr ns') with (map CStr (s0 :: ns')) in Hy.
    apply in_map_iff in Hy as [s [<- Hs]].
    destruct (scan_raise_str s x (Hne s Hs) Hyx) as [[z [f [_ ->]]]|[f [_ ->]]]; eauto. }
  assert (Hnull : existsb seen_null vs = false).
  { apply existsb_false_all. intros x Hx.
    destruct (Hsh x Hx) as [[z [f ->]]|[f ->]]; reflexivity. }
  rewrite Hnull in H.
  destruct (_ && _ && _).
  { injection H as <-. cbn [cells].
    change (CStr s0 :: map CStr ns') with (map CStr (s0 :: ns')).
    apply forallb_forall. intros v Hv. apply in_map_iff in Hv as [s [<- _]]. reflexivity. }
  destruct (false || _ || _ || _) eqn:E1.
  { injection H as <-. cbn [cells]. apply forallb_forall. intros v Hv.
    apply in_map_iff in Hv as [x [<- Hx]].
    destruct (Hsh x Hx) as [[z [f ->]]|[f ->]]; apply notna_xfloat. }
  cbn [orb] in E1. apply orb_false_iff in E1 as [E1 _]. apply orb_false_iff in E1 as [E1 _].
  destruct (existsb seen_int vs) eqn:E2.
  - injection H as <-. cbn [cells]. apply forallb_forall. intros v Hv.
    apply in_map_iff in Hv as [x [<- Hx]].
    destruct (Hsh x Hx) as [[z [f ->]]|[f ->]]; [reflexivity|].
    exfalso. pose proof (existsb_false_in _ _ _ E1 Hx) as C. discriminate C.
  - exfalso. pose proof (py_map_length _ _ _ Evs) as Hl.
    destruct vs as [|x vs']; [discriminate|].
    destruct (Hsh x (or_introl eq_refl)) as [[z [f ->]]|[f ->]]; simpl in E1, E2; discriminate.
Qed.

(** The positions [is_numeric_with_na] makes missing are those of the
    tokens. *)
Lemma is_numeric_missing (series r : column) :
  is_numeric_with_na series = (true, r) ->
  Forall2 (fun v w => is_missing w = is_na_token (py_str v)) (cells series) (cells r).
Proof.
  unfold is_numeric_with_na. cbv zeta. cbn [to_numeric dtype_of cells].
  destruct (maybe_convert_numeric false _) as [e|res] eqn:En; [discriminate|].
  destruct (dtype_eqb (dtype_of res) DObject); [discriminate|].
  assert (Hne : forall s, In s (filter (fun s => negb (is_na_token s))
                                       (map py_str (cells series))) -> s <> "").
  { intros s Hs. apply filter_In in Hs as [_ Hs]. apply negb_true_iff in Hs.
    exact (na_token_nonempty _ Hs). }
  destruct (mcn_raise_strs _ _ Hne En) as [Hlen Hnn].
  assert (Hfill : Forall2 (fun b w => is_missing w = b)
                    (map is_na_token (map py_str (cells series)))
                    (fill_na (map is_na_token (map py_str (cells series)))
                             (map as_float64 (cells res)))).
  { apply fill_na_missing.
    - rewrite length_map, Hlen. apply filter_negb_map.
    - apply forallb_forall. intros v Hv. apply in_map_iff in Hv as [u [<- Hu]].
      rewrite as_float64_notna. rewrite forallb_forall in Hnn. exact (Hnn u Hu). }
  apply Forall2_map_l in Hfill. apply Forall2_map_l in Hfill.
  destruct (_ && _).
  - destruct (py_map float_to_Int64 _) as [e|l] eqn:Ep; [discriminate|].
    intros H. injection H as <-. cbn [cells].
    eapply Forall2_compose; [|exact Hfill|exact (py_map_Forall2 _ _ _ Ep)].
    intros v w u H1 H2. cbv beta in *. rewrite (float_to_Int64_missing _ _ H2). exact H1.
  - intros H. injection H as <-. exact Hfill.
Qed.

(** A column of tokens only is numeric: float64, all missing. *)
Lemma is_numeric_all_tokens (series : column) :
  forallb (fun v => is_na_token (py_str v)) (cells series) = true ->
  is_numeric_with_na series = (true, mkcol DFloat64 (map (fun _ => CNaN) (cells series))).
Proof.
  destruct series as [t l]. cbn [cells]. intros H. unfold is_numeric_with_na. cbn [cells].
  assert (Hf : filter (fun s => negb (is_na_token s)) (map py_str l) = []).
  { clear t. induction l as [|v r IH]; simpl in *; [reflexivity|].
    apply andb_prop in H as [H1 H2]. rewrite H1. simpl. exact (IH H2). }
  rewrite Hf. cbv zeta.
  cbn [map to_numeric dtype_of cells maybe_convert_numeric dtype_eqb].
  assert (Hm : fill_na (map is_na_token (map py_str l)) [] = map (fun _ => CNaN) l).
  { clear t Hf. induction l as [|v r IH]; simpl in *; [reflexivity|].
    apply andb_prop in H as [H1 H2]. rewrite H1. simpl. now rewrite (IH H2). }
  rewrite Hm.
  assert (Hn : filter notna (map (fun _ : cell => CNaN) l) = []).
  { clear. induction l; simpl; auto. }
  rewrite Hn. reflexivity.
Qed.

(** A non-token that does not parse makes [is_numeric_with_na] answer
    [False, series]. *)
Lemma is_numeric_unparsable (c : column) (s : string) :
  In s (map py_str (cells c)) -> is_na_token s = false -> to_numeric_str s = None ->
  is_numeric_with_na c = (false, c).
Proof.
  intros Hin Hna Hnum. unfold is_numeric_with_na. cbv zeta. cbn [to_numeric dtype_of].
  assert (Hs : In s (filter (fun s => negb (is_na_token s)) (map py_str (cells c)))).
  { apply filter_In. rewrite Hna. auto. }
  assert (Hf : scan_value false (CStr s)
               = inl (ValueError ("Unable to parse string " ++ dq ++ s ++ dq))).
  { unfold scan_value. pose proof (na_token_nonempty _ Hna) as Hne.
    apply String.eqb_neq in Hne. rewrite Hne, Hnum. reflexivity. }
  destruct (py_map_inl_exists (scan_value false)
              (map CStr (filter (fun s => negb (is_na_token s)) (map py_str (cells c))))
              (CStr s) _ (in_map _ _ _ Hs) Hf) as [e [He _]].
  assert (H0 : match map CStr (filter (fun s => negb (is_na_token s)) (map py_str (cells c)))
               with [] => False | v0 :: _ => is_int_cell v0 = false end).
  { destruct (filter _ _); [contradiction|reflexivity]. }
  cbn [cells]. rewrite (mcn_inl _ _ _ H0 He). reflexivity.
Qed.

Lemma mcn_small_ints (ns : list string) :
  ns <> [] ->
  (forall s, In s ns -> exists z f, to_numeric_str s = Some (NInt z f) /\
                                    (Z.abs z <= 2 ^ 53)%Z /\ s <> "") ->
  maybe_convert_numeric false (map CStr ns) =
    inr (mkcol DInt64 (map (fun s => match to_numeric_str s with
                                     | Some (NInt z _) => CInt z
                                     | _ => CNA
                                     end) ns)).
Proof.
  intros Hne Hns.
  assert (Hscan : py_map (scan_value false) (map CStr ns)
                  = inr (map (fun s => seen_of_num (to_numeric_str s)) ns)).
  { rewrite py_map_map. apply py_map_ext_inr. intros s Hs.
    destruct (Hns s Hs) as [z [f [H1 [H2 H3]]]]. rewrite H1.
    exact (scan_raise_int s z f H3 H1 H2). }
  remember (map (fun s => seen_of_num (to_numeric_str s)) ns) as vs eqn:Evs.
  assert (Hv : forall x, In x vs -> exists z f, x = SInt z f /\ (Z.abs z <= 2 ^ 53)%Z).
  { intros x Hx. rewrite Evs in Hx. apply in_map_iff in Hx as [s [<- Hs]].
    destruct (Hns s Hs) as [z [f [H1 [H2 _]]]]. rewrite H1. exists z, f. split; [reflexivity|exact H2]. }
  assert (Hflag : forall p : seen -> bool,
            (forall z f, (Z.abs z <= 2 ^ 53)%Z -> p (SInt z f) = false) ->
            existsb p vs = false).
  { intros p Hp. apply existsb_false_all. intros x Hx.
    destruct (Hv x Hx) as [z [f [-> Hz]]]. exact (Hp z f Hz). }
  assert (Hnull : existsb seen_null vs = false) by (apply Hflag; reflexivity).
  assert (Hfloat : existsb seen_float vs = false) by (apply Hflag; reflexivity).
  assert (Hout : existsb seen_out vs = false).
  { apply Hflag. intros z f Hz. unfold seen_out.
    rewrite (proj2 (Z.leb_le int64_min z)) by (unfold int64_min; lia).
    rewrite (proj2 (Z.leb_le z uint64_max)) by (unfold uint64_max; lia). reflexivity. }
  assert (Huint : existsb seen_uint vs = false).
  { apply Hflag. intros z f Hz. unfold seen_uint. apply Z.ltb_ge. unfold int64_max. lia. }
  assert (Hint : existsb seen_int vs = true).
  { destruct ns as [|s0 ns']; [contradiction|]. rewrite Evs. simpl.
    destruct (Hns s0 (or_introl eq_refl)) as [z [f [H1 _]]]. now rewrite H1. }
  assert (Hfin : map int_of_seen vs
                 = map (fun s => match to_numeric_str s with
                                 | Some (NInt z _) => CInt z
                                 | _ => CNA
                                 end) ns).
  { rewrite Evs, map_map. apply map_ext_in. intros s Hs.
    destruct (Hns s Hs) as [z [f [H1 _]]]. now rewrite H1. }
  destruct ns as [|s0 ns']; [contradiction|].
  unfold maybe_convert_numeric. cbn [map is_int_cell andb].
  change (CStr s0 :: map CStr ns') with (map CStr (s0 :: ns')).
  rewrite Hscan. cbn [py_bind].
  rewrite Hnull, Hfloat, Hout, Huint, Hint. cbn [andb orb negb].
  rewrite Hfin. reflexivity.
Qed.

(** When every non-token is an integer literal of magnitude at most
    [2^53], and there is one, the column is numeric: nullable integers,
    tokens missing. *)
Lemma is_numeric_small_ints (c : column) :
  (forall v, In v (cells c) -> is_na_token (py_str v) = false ->
     exists z f, to_numeric_str (py_str v) = Some (NInt z f) /\ (Z.abs z <= 2 ^ 53)%Z) ->
  existsb (fun v => negb (is_na_token (py_str v))) (cells c) = true ->
  is_numeric_with_na c =
    (true, mkcol DNInt64 (map (fun v => if is_na_token (py_str v) then CNA
                                        else match to_numeric_str (py_str v) with
                                             | Some (NInt z _) => CInt z
                                             | _ => CNA
                                             end) (cells c))).
Proof.
  intros Hint Hex.
  assert (Hts : forall s, In s (map py_str (cells c)) -> is_na_token s = false ->
                exists z f, to_numeric_str s = Some (NInt z f) /\ (Z.abs z <= 2 ^ 53)%Z).
  { intros s Hs Ht. apply in_map_iff in Hs as [v [<- Hv]]. exact (Hint v Hv Ht). }
  assert (Hns : forall s, In s (filter (fun s => negb (is_na_token s)) (map py_str (cells c))) ->
                exists z f, to_numeric_str s = Some (NInt z f) /\ (Z.abs z <= 2 ^ 53)%Z /\ s <> "").
  { intros s Hs. apply filter_In in Hs as [Hs Ht]. apply negb_true_iff in Ht.
    destruct (Hts s Hs Ht) as [z [f [H1 H2]]]. exists z, f.
    split; [exact H1|]. split; [exact H2|]. exact (na_token_nonempty _ Ht). }
  apply existsb_exists in Hex as [v0 [Hv0 Ht0]]. apply negb_true_iff in Ht0.
  assert (Hne : filter (fun s => negb (is_na_token s)) (map py_str (cells c)) <> []).
  { intros E. assert (Hin : In (py_str v0) (filter (fun s => negb (is_na_token s))
                                                   (map py_str (cells c)))).
    { apply filter_In. rewrite Ht0. split; [now apply in_map|reflexivity]. }
    rewrite E in Hin. contradiction. }
  unfold is_numeric_with_na. cbv zeta. cbn [to_numeric dtype_of cells].
  rewrite (mcn_small_ints _ Hne Hns). cbn [dtype_of dtype_eqb cells].
  set (zc := fun s => match to_numeric_str s with Some (NInt z _) => CInt z | _ => CNA end).
  rewrite (map_map zc as_float64), (fill_na_filter is_na_token).
  assert (Hel : forall s, In s (map py_str (cells c)) -> is_na_token s = false ->
                exists z, as_float64 (zc s) = CFloat (dec_of_Z z) /\ zc s = CInt z /\
                          (Z.abs z <= 2 ^ 53)%Z).
  { intros s Hs Ht. destruct (Hts s Hs Ht) as [z [f [H1 H2]]]. exists z. unfold zc.
    rewrite H1. cbn [as_float64]. now rewrite (round_f64_small z H2). }
  destruct (filter notna (map (fun x => if is_na_token x then CNaN else as_float64 (zc x))
                              (map py_str (cells c)))) as [|w ws] eqn:Enn.
  { exfalso. assert (Hin : In (as_float64 (zc (py_str v0)))
                              (filter notna (map (fun x => if is_na_token x then CNaN
                                                           else as_float64 (zc x))
                                                 (map py_str (cells c))))).
    { apply filter_In. split.
      - apply in_map_iff. exists (py_str v0). rewrite Ht0. split; [reflexivity|now apply in_map].
      - destruct (Hel (py_str v0) (in_map _ _ _ Hv0) Ht0) as [z [-> _]]. reflexivity. }
    rewrite Enn in Hin. contradiction. }
  assert (Hall : forallb float_integral (w :: ws) = true).
  { apply forallb_forall. intros x Hx. rewrite <- Enn in Hx.
    apply filter_In in Hx as [Hx Hn]. apply in_map_iff in Hx as [s [<- Hs]].
    destruct (is_na_token s) eqn:Ht; [discriminate|].
    destruct (Hel s Hs Ht) as [z [-> _]]. apply dec_of_Z_facts. }
  rewrite Hall. cbn [negb andb]. rewrite py_map_map.
  rewrite (py_map_ext_inr _ (fun s => if is_na_token s then CNA else zc s)).
  - f_equal. f_equal. rewrite map_map. reflexivity.
  - intros s Hs. destruct (is_na_token s) eqn:Ht; [reflexivity|].
    destruct (Hel s Hs Ht) as [z [-> [-> Hz]]]. unfold float_to_Int64. cbn [is_missing num_of].
    destruct (dec_of_Z_facts z) as [Hi Hd]. rewrite Hi, Hd, (in_int64_small z Hz). reflexivity.
Qed.

End InferFacts.

(** The column [infer_column_type] sees for an object column in
    [infer_and_convert_data_types]. *)
Lemma classify_object `{Pandas} (c : column) :
  dtype_of c = DObject ->
  classify c = infer_stripped (mkcol DObject (map (fun v => CStr (PyStr.strip (py_str v))) (cells c))).
Proof.
  intros Hd. unfold classify, infer_column_type. rewrite Hd. simpl.
  unfold astype_str. simpl. rewrite map_map. reflexivity.
Qed.
(** ** Claims *)

(** C1: coercing a column to datetime when one of its non-missing values
    does not parse as a date fails for the whole column: the conversion
    raises the parser's [ValueError] for a value of that column, the
    request's loop stops with an error naming the column, the target type
    and that parser message (no table is produced, so no value is nulled),
    and any request whose mapping contains this pair is rejected. *)
Theorem C1_datetime_all_or_nothing `{Pandas} (df : frame) (name : string) (c : column)
    (x : cell) (msg : string) (rest : list (string * string)) :
  frame_get df name = Some c -> In x (cells c) -> notna x = true ->
  to_datetime_default x = inl msg ->
  (exists m,
     (exists y, In y (cells c) /\ notna y = true /\ to_datetime_default y = inl m) /\
     convert_column "datetime64[ns]" c = inl (ValueError m) /\
     convert_all ((name, "datetime64[ns]") :: rest) df
       = inl (mkerr name "datetime64[ns]" m)) /\
  (forall new_types, NoDup (map fst new_types) -> In (name, "datetime64[ns]") new_types ->
     exists err, convert_all new_types df = inl err).
Proof.
  intros Hget Hin Hna Hx.
  destruct (datetime_column_fails c x msg Hin Hna Hx) as [m [Hy Hconv]].
  split.
  - exists m. split; [exact Hy|]. split; [exact Hconv|].
    simpl. rewrite Hget, Hconv. reflexivity.
  - intros nt Hnd Hin'. eapply convert_all_fails_at; eauto.
Qed.

Lemma C1_datetime_all_or_nothing_witness :
  let df := [("d", mkcol DObject (strs ["2024-01-01"; "not-a-date"]))] in
  frame_get df "d" = Some (mkcol DObject (strs ["2024-01-01"; "not-a-date"])) /\
  In (CStr "not-a-date") (strs ["2024-01-01"; "not-a-date"]) /\
  notna (CStr "not-a-date") = true /\
  Demo.datetime_default (CStr "not-a-date")
    = inl "Unknown datetime string format, unable to parse: not-a-date" /\
  ((exists m,
     (exists y, In y (strs ["2024-01-01"; "not-a-date"]) /\ notna y = true /\
                Demo.datetime_default y = inl m) /\
     @convert_column Demo.pandas_demo "datetime64[ns]"
        (mkcol DObject (strs ["2024-01-01"; "not-a-date"])) = inl (ValueError m) /\
     @convert_all Demo.pandas_demo [("d", "datetime64[ns]")] df
       = inl (mkerr "d" "datetime64[ns]" m)) /\
   (forall new_types, NoDup (map fst new_types) -> In ("d", "datetime64[ns]") new_types ->
     exists err, @convert_all Demo.pandas_demo new_types df = inl err)).
Proof.
  intros df.
  split; [reflexivity|]. split; [simpl; auto|]. split; [reflexivity|].
  split; [reflexivity|].
  exact (@C1_datetime_all_or_nothing Demo.pandas_demo df "d"
           (mkcol DObject (strs ["2024-01-01"; "not-a-date"])) (CStr "not-a-date")
           "Unknown datetime string format, unable to parse: not-a-date" []
           eq_refl (or_intror (or_introl eq_refl)) eq_refl eq_refl).
Defined.

(** C10: for a request [post file_data column_types] that succeeds with
    the frame [df'], the columns of [df'] are those of the rebuilt table
    [pd.DataFrame(file_data)], with the same names in the same order, and
    every column whose name is not a key of [column_types] is the column
    of the rebuilt table, with the same values and dtype. *)
Theorem C10_unnamed_columns_unchanged `{Pandas} (file_data : list record)
    (new_types : list (string * string)) (df' : frame) :
  post file_data new_types = Updated df' ->
  map fst df' = map fst (DataFrame file_data) /\
  (forall name, ~ In name (map fst new_types) ->
     frame_get df' name = frame_get (DataFrame file_data) name).
Proof.
  unfold post. intros Hpost.
  destruct file_data as [|r rs]; [discriminate|].
  destruct new_types as [|nt nts]; [discriminate|].
  destruct (convert_all (nt :: nts) (DataFrame (r :: rs))) as [e|df] eqn:Hc;
    [discriminate|].
  injection Hpost as <-. exact (convert_all_frame _ _ _ Hc).
Qed.

Lemma C10_unnamed_columns_unchanged_witness :
  let rows := [[("Name", CStr "Ann"); ("Score", CStr "90")];
               [("Name", CStr "Bob"); ("Score", CStr "abc")]] in
  @post Demo.pandas_demo rows [("Score", "int64")]
    = Updated [("Name", mkcol DObject (strs ["Ann"; "Bob"]));
               ("Score", mkcol DNInt64 [CInt 90; CNA])] /\
  map fst [("Name", mkcol DObject (strs ["Ann"; "Bob"]));
           ("Score", mkcol DNInt64 [CInt 90; CNA])]
    = map fst (Demo.build_frame rows) /\
  (forall name, ~ In name (map fst [("Score", "int64")]) ->
     frame_get [("Name", mkcol DObject (strs ["Ann"; "Bob"]));
                ("Score", mkcol DNInt64 [CInt 90; CNA])] name
     = frame_get (Demo.build_frame rows) name).
Proof.
  intros rows.
  assert (Hp : @post Demo.pandas_demo rows [("Score", "int64")]
    = Updated [("Name", mkcol DObject (strs ["Ann"; "Bob"]));
               ("Score", mkcol DNInt64 [CInt 90; CNA])]) by reflexivity.
  split; [exact Hp|].
  exact (@C10_unnamed_columns_unchanged Demo.pandas_demo rows _ _ Hp).
Defined.
Lemma forallb_false_in {A} (p : A -> bool) (l : list A) (x : A) :
  In x l -> p x = false -> forallb p l = false.
Proof.
  induction l as [|a r IH]; simpl; [tauto|].
  intros [<-|Hin] Hp; [now rewrite Hp|].
  rewrite (IH Hin Hp). apply andb_false_r.
Qed.

Lemma in_dropna (l : list cell) (x : cell) :
  In x l -> notna x = true -> In x (dropna l).
Proof. intros. unfold dropna. now apply filter_In. Qed.

Lemma infer_dtype_str (l : list cell) (s : string) :
  In (CStr s) l -> infer_dtype l = IOther.
Proof.
  intros Hin. unfold infer_dtype.
  pose proof (in_dropna l (CStr s) Hin eq_refl) as Hd.
  destruct (dropna l) as [|a r] eqn:E; [contradiction|].
  rewrite (forallb_false_in is_bool_cell _ _ Hd eq_refl).
  rewrite (forallb_false_in is_int_cell _ _ Hd eq_refl).
  rewrite (forallb_false_in is_float_cell _ _ Hd eq_refl).
  rewrite (forallb_false_in (fun v => is_int_cell v || is_float_cell v) _ _ Hd eq_refl).
  reflexivity.
Qed.

Lemma infer_dtype_bools (l : list cell) :
  forallb (fun v => is_bool_cell v || is_missing v) l = true ->
  infer_dtype l = IBoolean \/ infer_dtype l = IEmpty.
Proof.
  intros H. unfold infer_dtype.
  assert (Hb : forallb is_bool_cell (dropna l) = true).
  { apply forallb_forall. intros x Hx. unfold dropna in Hx.
    apply filter_In in Hx as [Hx Hn].
    rewrite forallb_forall in H. specialize (H x Hx).
    unfold notna in Hn. destruct (is_missing x); [discriminate|].
    now rewrite orb_false_r in H. }
  destruct (dropna l) as [|a r]; [now right|]. rewrite Hb. now left.
Qed.
(* ------------------------------------------------------------------ *)
(** ** [str.strip] is idempotent *)

Lemma str_app_nil (s : string) : s ++ EmptyString = s.
Proof. induction s as [|c r IH]; simpl; [reflexivity|now rewrite IH]. Qed.

Lemma str_app_assoc (a b c : string) : (a ++ b) ++ c = a ++ (b ++ c).
Proof. induction a as [|x r IH]; simpl; [reflexivity|now rewrite IH]. Qed.

Lemma rev_str_app (a b : string) : PyStr.rev_str (a ++ b) = PyStr.rev_str b ++ PyStr.rev_str a.
Proof.
  induction a as [|x r IH]; simpl.
  - now rewrite str_app_nil.
  - rewrite IH. apply str_app_assoc.
Qed.

Lemma rev_str_involutive (s : string) : PyStr.rev_str (PyStr.rev_str s) = s.
Proof.
  induction s as [|c r IH]; simpl; [reflexivity|].
  rewrite rev_str_app, IH. reflexivity.
Qed.

Lemma lstrip_idem (s : string) : PyStr.lstrip (PyStr.lstrip s) = PyStr.lstrip s.
Proof.
  induction s as [|c r IH]; simpl; [reflexivity|].
  destruct (PyStr.is_space c) eqn:E; [exact IH|]. simpl. now rewrite E.
Qed.

Lemma lstrip_suffix (s : string) : exists p, s = p ++ PyStr.lstrip s.
Proof.
  induction s as [|c r [p Hp]]; simpl; [now exists EmptyString|].
  destruct (PyStr.is_space c).
  - exists (String c p). simpl. now rewrite <- Hp.
  - now exists EmptyString.
Qed.

Lemma lstrip_length (s : string) : (String.length (PyStr.lstrip s) <= String.length s)%nat.
Proof.
  induction s as [|c r IH]; simpl; [lia|].
  destruct (PyStr.is_space c); simpl; lia.
Qed.

Lemma rstrip_prefix (s : string) : exists w, s = PyStr.rstrip s ++ w.
Proof.
  destruct (lstrip_suffix (PyStr.rev_str s)) as [p Hp].
  exists (PyStr.rev_str p). unfold PyStr.rstrip.
  rewrite <- rev_str_app, <- Hp. symmetry. apply rev_str_involutive.
Qed.

Lemma rstrip_idem (s : string) : PyStr.rstrip (PyStr.rstrip s) = PyStr.rstrip s.
Proof. unfold PyStr.rstrip. now rewrite rev_str_involutive, lstrip_idem. Qed.

Lemma lstrip_rstrip (s : string) :
  PyStr.lstrip s = s -> PyStr.lstrip (PyStr.rstrip s) = PyStr.rstrip s.
Proof.
  intros Hs. destruct (rstrip_prefix s) as [w Hw].
  destruct (PyStr.rstrip s) as [|c r] eqn:E; [reflexivity|].
  rewrite Hw in Hs. simpl in Hs. simpl.
  destruct (PyStr.is_space c) eqn:Ec; [|reflexivity].
  exfalso. pose proof (lstrip_length (r ++ w)) as Hl.
  rewrite Hs in Hl. simpl in Hl. lia.
Qed.

Lemma strip_idem (s : string) : PyStr.strip (PyStr.strip s) = PyStr.strip s.
Proof.
  unfold PyStr.strip.
  rewrite (lstrip_rstrip (PyStr.lstrip s) (lstrip_idem s)).
  apply rstrip_idem.
Qed.


(* ------------------------------------------------------------------ *)
(** ** Coercion to integer *)

(** The scan flags of [maybe_convert_numeric] are all clear exactly when
    every value read is an integer within the int64 range. *)
Lemma exact_seen_flags (vs : list seen) :
  (forall x, In x vs -> exists z f, x = SInt z f /\ in_int64 z = true) ->
  (existsb seen_null vs || existsb seen_float vs || existsb seen_out vs ||
     (existsb seen_uint vs && existsb seen_sint vs)) = false /\
  existsb seen_uint vs = false.
Proof.
  intros H.
  assert (Hf : forall p : seen -> bool,
             (forall z f, in_int64 z = true -> p (SInt z f) = false) -> existsb p vs = false).
  { intros p Hp. apply existsb_false_all. intros x Hx.
    destruct (H x Hx) as [z [f [-> Hz]]]. exact (Hp z f Hz). }
  assert (Hrange : forall z, in_int64 z = true -> (int64_min <= z <= int64_max)%Z).
  { unfold in_int64, int64_min, int64_max. intros z Hz.
    apply andb_prop in Hz as [H1 H2]. apply Z.leb_le in H1. apply Z.ltb_lt in H2. lia. }
  assert (Hu : existsb seen_uint vs = false).
  { apply Hf. intros z f Hz. apply Z.ltb_ge. apply Hrange in Hz. lia. }
  split; [|exact Hu].
  rewrite Hu, (Hf seen_null), (Hf seen_float), (Hf seen_out); try reflexivity.
  intros z f Hz. apply Hrange in Hz. unfold seen_out.
  rewrite (proj2 (Z.leb_le int64_min z)) by lia.
  rewrite (proj2 (Z.leb_le z uint64_max)) by (unfold uint64_max, int64_max in *; lia).
  reflexivity.
Qed.

Lemma seen_flags_exact (vs : list seen) :
  (existsb seen_null vs || existsb seen_float vs || existsb seen_out vs ||
     (existsb seen_uint vs && existsb seen_sint vs)) = false ->
  existsb seen_uint vs = false -> (forall b, ~ In (SBool b) vs) ->
  forall x, In x vs -> exists z f, x = SInt z f /\ in_int64 z = true.
Proof.
  intros H Hu Hb x Hx.
  apply orb_false_iff in H as [H _]. apply orb_false_iff in H as [H Ho].
  apply orb_false_iff in H as [Hn Hfl].
  pose proof (existsb_false_in _ _ _ Hn Hx) as Hn'.
  pose proof (existsb_false_in _ _ _ Hfl Hx) as Hfl'.
  pose proof (existsb_false_in _ _ _ Ho Hx) as Ho'.
  pose proof (existsb_false_in _ _ _ Hu Hx) as Hu'.
  destruct x as [|z f|f|b]; try discriminate.
  - exists z, f. split; [reflexivity|].
    unfold seen_out in Ho'. unfold seen_uint in Hu'.
    apply negb_false_iff in Ho'. apply andb_prop in Ho' as [H1 _].
    apply Z.leb_le in H1. apply Z.ltb_ge in Hu'.
    unfold in_int64, int64_min, int64_max in *. apply andb_true_intro.
    split; [apply Z.leb_le|apply Z.ltb_lt]; lia.
  - exfalso. exact (Hb b Hx).
Qed.

(* ------------------------------------------------------------------ *)
(** ** Claims about [UpdateTypesView.post] and the classifier *)

(** C2 (as stated, refuted): coercing to integer can fail as a whole: a
    value that parses to a fractional number makes [.astype('Int64')]
    raise, and the request is rejected for that column. *)
Lemma C2_fractional_value_fails :
  @convert_column Demo.pandas_demo "int64" (mkcol DObject (strs ["90"; "1.5"]))
    = inl (TypeError "cannot safely cast non-equivalent float64 to int64") /\
  @post Demo.pandas_demo [[("Score", CStr "90")]; [("Score", CStr "1.5")]] [("Score", "int64")]
    = ConversionFailed
        (mkerr "Score" "int64" "cannot safely cast non-equivalent float64 to int64").
Proof. split; reflexivity. Qed.

(** C2 (amended): coercing a text column to integer reads every string
    as [pd.to_numeric(errors='coerce')] does ([coerce_str]; a string that
    does not parse becomes null), then casts with [.astype('Int64')].
    (i) When no string parses, every value becomes the missing sentinel
    and the conversion succeeds.  (ii) When every string is an integer
    literal within the int64 range, the conversion succeeds with exactly
    those integers.  (iii) When some string does not parse or is a
    decimal, the column goes through float64: each value is replaced by
    the float64 read for it (an integer of more than 53 bits is rounded),
    which must be finite, integral and within the int64 range, or the
    whole column fails with the cast error. *)
Theorem C2_integer_coercion_soft `{Pandas} (l : list string) :
  ((forall s, In s l -> coerce_str s = None) ->
   convert_column "int64" (mkcol DObject (strs l))
   = inr (mkcol DNInt64 (map (fun _ => CNA) l))) /\
  ((forall s, In s l -> exists z f, coerce_str s = Some (NInt z f) /\ in_int64 z = true) ->
   convert_column "int64" (mkcol DObject (strs l))
   = inr (mkcol DNInt64 (map (fun s => match coerce_str s with
                                      | Some (NInt z _) => CInt z
                                      | _ => CNA
                                      end) l))) /\
  ((exists s, In s l /\ (coerce_str s = None \/ exists f, coerce_str s = Some (NFloat f))) ->
   convert_column "int64" (mkcol DObject (strs l))
   = (vs <- py_map (fun s => float_to_Int64 (match coerce_str s with
                                             | Some n => cell_of_xfloat (num_float n)
                                             | None => CNaN
                                             end)) l ;;
      inr (mkcol DNInt64 vs))).
Proof.
  pose proof (convert_int64_strs l) as Hc. cbv zeta in Hc. rewrite Hc. clear Hc.
  split; [|split].
  - intros Hn. destruct l as [|s0 l']; [reflexivity|].
    assert (Hnull : existsb seen_null (map (fun s => seen_of_num (coerce_str s)) (s0 :: l'))
                    = true).
    { cbn [map existsb]. now rewrite (Hn s0 (or_introl eq_refl)). }
    rewrite Hnull. cbn [orb]. rewrite map_map, py_map_map.
    rewrite (py_map_ext_inr _ (fun _ => CNA)); [reflexivity|].
    intros s Hs. now rewrite (Hn s Hs).
  - intros He.
    assert (Hs : forall x, In x (map (fun s => seen_of_num (coerce_str s)) l) ->
                 exists z f, x = SInt z f /\ in_int64 z = true).
    { intros x Hx. apply in_map_iff in Hx as [s [<- Hs]].
      destruct (He s Hs) as [z [f [H1 H2]]]. rewrite H1. exists z, f. auto. }
    destruct (exact_seen_flags _ Hs) as [H1 H2]. rewrite H1, H2.
    rewrite map_map. f_equal. f_equal. apply map_ext_in. intros s Hs'.
    destruct (He s Hs') as [z [f [H3 _]]]. now rewrite H3.
  - intros [s [Hs Hnf]].
    assert (Hpro : existsb seen_null (map (fun s => seen_of_num (coerce_str s)) l) ||
                   existsb seen_float (map (fun s => seen_of_num (coerce_str s)) l) = true).
    { apply orb_true_iff. destruct Hnf as [Hn|[f Hf]]; [left|right];
        apply existsb_exists; exists (seen_of_num (coerce_str s));
        (split; [exact (in_map (fun s => seen_of_num (coerce_str s)) l s Hs)|]);
        [rewrite Hn|rewrite Hf]; reflexivity. }
    rewrite Hpro. cbn [orb]. rewrite map_map, py_map_map.
    assert (Hm : py_map (fun x => float_to_Int64 (float_of_seen (seen_of_num (coerce_str x)))) l
                 = py_map (fun s => float_to_Int64 (match coerce_str s with
                                                    | Some n => cell_of_xfloat (num_float n)
                                                    | None => CNaN
                                                    end)) l).
    { clear. induction l as [|x r IH]; simpl; [reflexivity|].
      rewrite float_of_seen_num, IH. reflexivity. }
    now rewrite Hm.
Qed.

Lemma C2_integer_coercion_soft_witness :
  @convert_column Demo.pandas_demo "int64" (mkcol DObject (strs ["90"; "abc"; "70"]))
    = inr (mkcol DNInt64 [CInt 90; CNA; CInt 70]) /\
  @convert_column Demo.pandas_demo "int64" (mkcol DObject (strs ["abc"; ""]))
    = inr (mkcol DNInt64 [CNA; CNA]) /\
  @convert_column Demo.pandas_demo "int64" (mkcol DObject (strs ["9007199254740993"; "7"]))
    = inr (mkcol DNInt64 [CInt 9007199254740993; CInt 7]) /\
  @convert_column Demo.pandas_demo "int64" (mkcol DObject (strs ["9007199254740993"; "abc"]))
    = inr (mkcol DNInt64 [CInt 9007199254740992; CNA]) /\
  @convert_column Demo.pandas_demo "int64" (mkcol DObject (strs ["inf"; "1"]))
    = inl cast_float_error.
Proof.
  split.
  { destruct (@C2_integer_coercion_soft Demo.pandas_demo ["90"; "abc"; "70"]) as [_ [_ H3]].
    rewrite H3; [reflexivity|]. exists "abc". split; [simpl; auto|left; reflexivity]. }
  split.
  { destruct (@C2_integer_coercion_soft Demo.pandas_demo ["abc"; ""]) as [H1 _].
    rewrite H1; [reflexivity|]. intros s [<-|[<-|[]]]; reflexivity. }
  split.
  { destruct (@C2_integer_coercion_soft Demo.pandas_demo ["9007199254740993"; "7"])
      as [_ [H2 _]].
    rewrite H2; [reflexivity|].
    intros s [<-|[<-|[]]]; (eexists; eexists; split; [reflexivity|reflexivity]). }
  split.
  { destruct (@C2_integer_coercion_soft Demo.pandas_demo ["9007199254740993"; "abc"])
      as [_ [_ H3]].
    rewrite H3; [reflexivity|]. exists "abc". split; [simpl; auto|left; reflexivity]. }
  destruct (@C2_integer_coercion_soft Demo.pandas_demo ["inf"; "1"]) as [_ [_ H3]].
  rewrite H3; [reflexivity|]. exists "inf". split; [simpl; auto|].
  right. eexists. reflexivity.
Defined.

(** C4 (code bug): coercing a text column to boolean is
    [astype('boolean')], which does not use the classification table: a
    column holding a string fails as a whole with [TypeError] ("Need to
    pass bool-like values"), also when the string is in the table,
    where the table gives a boolean for it. *)
Theorem C4_boolean_coercion `{Pandas} (c : column) (s : string) :
  dtype_of c = DObject -> In (CStr s) (cells c) ->
  convert_column "bool" c = inl need_bool_like /\
  (PyStr.mem (PyStr.lower s) bool_values = true ->
   exists b, bool_map_str (PyStr.lower s) = Some b /\
             In (CBool b) (cells (convert_to_boolean c))).
Proof.
  intros Hd Hs. split.
  - unfold convert_column. cbn. unfold astype_boolean. rewrite Hd.
    now rewrite (infer_dtype_str _ s Hs).
  - intros Hm. destruct (bool_map_total _ Hm) as [b Hb]. exists b. split; [exact Hb|].
    unfold convert_to_boolean. rewrite Hd. cbn [is_int_dtype dtype_eqb orb cells].
    apply in_map_iff. exists (CStr s). split; [|exact Hs]. cbn [notna is_missing py_str negb].
    now rewrite Hb.
Qed.

Lemma C4_boolean_coercion_witness :
  dtype_of (mkcol DObject (strs ["yes"; "no"])) = DObject /\
  In (CStr "yes") (cells (mkcol DObject (strs ["yes"; "no"]))) /\
  @convert_column Demo.pandas_demo "bool" (mkcol DObject (strs ["yes"; "no"]))
    = inl need_bool_like /\
  (PyStr.mem (PyStr.lower "yes") bool_values = true ->
   exists b, bool_map_str (PyStr.lower "yes") = Some b /\
             In (CBool b) (cells (convert_to_boolean (mkcol DObject (strs ["yes"; "no"]))))) /\
  convert_to_boolean (mkcol DObject (strs ["yes"; "no"]))
    = mkcol DBoolean [CBool true; CBool false] /\
  @post Demo.pandas_demo [[("flag", CStr "yes")]; [("flag", CStr "no")]] [("flag", "bool")]
    = ConversionFailed (mkerr "flag" "bool" "Need to pass bool-like values").
Proof.
  split; [reflexivity|]. split; [simpl; auto|].
  destruct (@C4_boolean_coercion Demo.pandas_demo (mkcol DObject (strs ["yes"; "no"])) "yes"
              eq_refl (or_introl eq_refl)) as [H1 H2].
  split; [exact H1|]. split; [exact H2|]. split; reflexivity.
Defined.

(** C6 (as stated, refuted): after coercing ["007"] to integer and back to
    text the value is the integer 7: neither the string "007" nor a
    string at all ([astype('object')] does not stringify), and its [str]
    is "7". *)
Lemma C6_roundtrip_loses_spelling :
  @convert_column Demo.pandas_demo "int64" (mkcol DObject (strs ["007"]))
    = inr (mkcol DNInt64 [CInt 7]) /\
  @convert_column Demo.pandas_demo "object" (mkcol DNInt64 [CInt 7])
    = inr (mkcol DObject [CInt 7]) /\
  CInt 7 <> CStr "007" /\ py_str (CInt 7) = "7".
Proof. split; [reflexivity|]. split; [reflexivity|]. split; [discriminate|reflexivity]. Qed.

(** C6 (amended): the text coercion ([astype('object')], any type name
    other than the five handled ones) keeps every value as it is, without
    stringifying it.  So when coercing a text column to integer and the
    result to text succeeds, the result is an object column holding, when
    every string is an int64 literal, the integers read from the strings
    (not their spelling); otherwise, at each position, the sentinel where
    the string did not parse, else the integer value of the float64 read
    for it (rounded above 2^53). *)
Theorem C6_integer_then_text `{Pandas} (l : list string) (c2 : column) :
  (c1 <- convert_column "int64" (mkcol DObject (strs l)) ;; convert_column "object" c1)
    = inr c2 ->
  dtype_of c2 = DObject /\
  ((forall s, In s l -> exists z f, coerce_str s = Some (NInt z f) /\ in_int64 z = true) ->
   Forall2 (fun s v => exists z f, coerce_str s = Some (NInt z f) /\ v = CInt z) l (cells c2)) /\
  (~ (forall s, In s l -> exists z f, coerce_str s = Some (NInt z f) /\ in_int64 z = true) ->
   Forall2 (fun s v => (coerce_str s = None /\ v = CNA) \/
                       (exists n d, coerce_str s = Some n /\ num_float n = XFin d /\
                                    dec_integral d = true /\ v = CInt (dec_to_Z d)))
           l (cells c2)).
Proof.
  intros H2.
  destruct (convert_column "int64" (mkcol DObject (strs l))) as [e|c1] eqn:Hc1; [discriminate|].
  pose proof (convert_int64_strs l) as Hc. cbv zeta in Hc. rewrite Hc1 in Hc.
  cbn [py_bind] in H2. unfold convert_column in H2. cbn in H2. injection H2 as <-.
  cbn [dtype_of cells]. split; [reflexivity|].
  destruct (existsb seen_null _ || _ || _ || _) eqn:E1.
  - destruct (py_map float_to_Int64 _) as [e|r] eqn:Ep; cbn [py_bind] in Hc; [discriminate|].
    injection Hc as ->. cbn [cells].
    pose proof (py_map_Forall2 _ _ _ Ep) as Hf.
    apply Forall2_map_l in Hf. apply Forall2_map_l in Hf.
    split.
    + intros Hex. exfalso.
      assert (Hs : forall x, In x (map (fun s => seen_of_num (coerce_str s)) l) ->
                   exists z f, x = SInt z f /\ in_int64 z = true).
      { intros x Hx. apply in_map_iff in Hx as [s [<- Hs]].
        destruct (Hex s Hs) as [z [f [H1 H2]]]. rewrite H1. exists z, f. auto. }
      rewrite (proj1 (exact_seen_flags _ Hs)) in E1. discriminate.
    + intros _. eapply Forall2_impl; [|exact Hf]. intros s v Hv. cbv beta in Hv.
      destruct (float_to_Int64_num _ _ Hv) as [[Ho Hv']|[n [d [Ho [Hd [Hi [_ Hv']]]]]]].
      * left. auto.
      * right. exists n, d. auto.
  - destruct (existsb seen_uint _) eqn:E2; [discriminate|]. injection Hc as ->. cbn [cells].
    assert (Hnb : forall b, ~ In (SBool b) (map (fun s => seen_of_num (coerce_str s)) l)).
    { intros b Hb. apply in_map_iff in Hb as [s [Hs _]]. exact (seen_of_num_not_bool _ _ Hs). }
    pose proof (seen_flags_exact (map (fun s => seen_of_num (coerce_str s)) l)
                  ltac:(rewrite E2; exact E1) E2 Hnb) as Hx.
    assert (Hex : forall s, In s l ->
                  exists z f, coerce_str s = Some (NInt z f) /\ in_int64 z = true).
    { intros s Hs. destruct (Hx (seen_of_num (coerce_str s)) (in_map _ _ _ Hs))
        as [z [f [Hz Hi]]].
      destruct (coerce_str s) as [[z' f'|f']|]; cbn in Hz; try discriminate.
      injection Hz as -> ->. eauto. }
    split.
    + intros _. rewrite map_map. apply Forall2_self. intros s Hs.
      destruct (Hex s Hs) as [z [f [H1 _]]]. rewrite H1. eauto.
    + intros Hn. exfalso. exact (Hn Hex).
Qed.

Lemma C6_integer_then_text_witness :
  (c1 <- @convert_column Demo.pandas_demo "int64"
                          (mkcol DObject (strs ["9007199254740993"; "abc"])) ;;
   @convert_column Demo.pandas_demo "object" c1)
    = inr (mkcol DObject [CInt 9007199254740992; CNA]) /\
  dtype_of (mkcol DObject [CInt 9007199254740992; CNA]) = DObject /\
  ((forall s, In s ["9007199254740993"; "abc"] ->
     exists z f, @coerce_str Demo.pandas_demo s = Some (NInt z f) /\ in_int64 z = true) ->
   Forall2 (fun s v => exists z f, @coerce_str Demo.pandas_demo s = Some (NInt z f) /\ v = CInt z)
           ["9007199254740993"; "abc"] [CInt 9007199254740992; CNA]) /\
  (~ (forall s, In s ["9007199254740993"; "abc"] ->
       exists z f, @coerce_str Demo.pandas_demo s = Some (NInt z f) /\ in_int64 z = true) ->
   Forall2 (fun s v => (@coerce_str Demo.pandas_demo s = None /\ v = CNA) \/
                       (exists n d, @coerce_str Demo.pandas_demo s = Some n /\ num_float n = XFin d /\
                                    dec_integral d = true /\ v = CInt (dec_to_Z d)))
           ["9007199254740993"; "abc"] [CInt 9007199254740992; CNA]).
Proof.
  assert (H : (c1 <- @convert_column Demo.pandas_demo "int64"
                                      (mkcol DObject (strs ["9007199254740993"; "abc"])) ;;
               @convert_column Demo.pandas_demo "object" c1)
              = inr (mkcol DObject [CInt 9007199254740992; CNA])) by reflexivity.
  split; [exact H|].
  exact (@C6_integer_then_text Demo.pandas_demo ["9007199254740993"; "abc"] _ H).
Defined.

(** C3 (code bug): a numeric column of 1.0/0.0 values ([float64], as
    [read_csv] gives for a 0/1 column written 1.0/0.0 or with a blank) is
    not recognised by [is_boolean], whose dtype list omits [float64]
    although [convert_to_boolean] handles [float64] 1.0/0.0; the column is
    classified as nullable Integer [1, 0] instead of Boolean. *)
Theorem C3_float_01_column_not_boolean :
  let c := mkcol DFloat64 [CFloat (mkdec 1 0); CFloat (mkdec 0 0)] in
  is_boolean c = false /\
  @classify Demo.pandas_demo c = inr (mkcol DNInt64 [CInt 1; CInt 0]) /\
  convert_to_boolean c = mkcol DBoolean [CBool true; CBool false].
Proof. split; [reflexivity|]. split; reflexivity. Qed.

(** C7 (as stated, refuted): a column made only of the token "NA" is
    classified by the numeric rule, as [float64] with every value
    missing. *)
Lemma C7_all_tokens_is_numeric :
  @classify Demo.pandas_demo (mkcol DObject (strs ["NA"; "-"]))
    = inr (mkcol DFloat64 [CNaN; CNaN]).
Proof. reflexivity. Qed.

(** C7 (amended): a non-empty column whose values are all recognised
    missing-value tokens is classified by the numeric rule as Float
    ([float64]) with every value missing; the "at least one value" test
    only chooses Integer over Float, so such a column is never Integer. *)
Theorem C7_all_tokens_float `{Pandas} (c : column) :
  dtype_of c = DObject -> cells c <> [] ->
  forallb (fun v => is_na_token (py_str v)) (cells c) = true ->
  classify c = inr (mkcol DFloat64 (map (fun _ => CNaN) (cells c))).
Proof.
  intros Hd Hne Hall. rewrite (classify_object c Hd).
  unfold infer_stripped. cbn [dtype_of dtype_eqb].
  assert (Hb : is_boolean (mkcol DObject (map (fun v => CStr (PyStr.strip (py_str v)))
                                              (cells c))) = false).
  { destruct (cells c) as [|v0 r] eqn:Ec; [contradiction|].
    cbn [forallb] in Hall. apply andb_prop in Hall as [H0 _]. apply mem_In in H0.
    destruct (na_value_facts _ H0) as [_ Hl].
    unfold is_boolean. cbn -[PyStr.mem PyStr.lower PyStr.strip]. rewrite Hl. reflexivity. }
  rewrite Hb.
  rewrite is_numeric_all_tokens.
  - cbn [cells]. now rewrite map_map.
  - cbn [cells]. apply forallb_forall. intros x Hx. apply in_map_iff in Hx as [v [<- Hv]].
    rewrite forallb_forall in Hall. specialize (Hall v Hv). cbn [py_str].
    unfold is_na_token in *. now rewrite strip_idem.
Qed.

Lemma C7_all_tokens_float_witness :
  dtype_of (mkcol DObject (strs ["NA"; " - "; "n/a"])) = DObject /\
  cells (mkcol DObject (strs ["NA"; " - "; "n/a"])) <> [] /\
  @forallb cell (fun v => is_na_token (py_str v)) (strs ["NA"; " - "; "n/a"]) = true /\
  @classify Demo.pandas_demo (mkcol DObject (strs ["NA"; " - "; "n/a"]))
    = inr (mkcol DFloat64 (map (fun _ => CNaN) (strs ["NA"; " - "; "n/a"]))).
Proof.
  split; [reflexivity|]. split; [discriminate|]. split; [reflexivity|].
  exact (@C7_all_tokens_float Demo.pandas_demo (mkcol DObject (strs ["NA"; " - "; "n/a"]))
           eq_refl ltac:(discriminate) eq_refl).
Defined.

(** C8 (as stated, refuted): token recognition is case-sensitive: "na"
    and "NOT AVAILABLE" are not tokens, and the value "NOT AVAILABLE"
    makes the numeric rule fail for its column, while the listed spelling
    "not available" is mapped to the sentinel. *)
Lemma C8_other_casings_not_tokens :
  is_na_token "na" = false /\ is_na_token "NOT AVAILABLE" = false /\
  is_na_token " not available " = true /\
  fst (@is_numeric_with_na Demo.pandas_demo (mkcol DObject (strs ["1"; "NOT AVAILABLE"])))
    = false /\
  @is_numeric_with_na Demo.pandas_demo (mkcol DObject (strs ["1"; "not available"]))
    = (true, mkcol DNInt64 [CInt 1; CNA]).
Proof. repeat split; reflexivity. Qed.

(** C8 (amended): in the numeric rule a value is made missing exactly
    when its stripped form is one of the listed spellings (Not Available,
    NA, N/A, not available, n/a, "", " ", -), with case as written; any
    other value that does not parse as a number, such as "na" or "NOT
    AVAILABLE", makes the numeric rule fail for the whole column; and
    when every other value is an integer literal (of at most 53 bits),
    the rule gives the nullable integers with the tokens missing. *)
Theorem C8_exact_tokens `{Pandas} (c r : column) (s : string) :
  (is_numeric_with_na c = (true, r) ->
   Forall2 (fun v w => is_missing w = true <-> In (PyStr.strip (py_str v)) na_values)
           (cells c) (cells r)) /\
  (In s (map py_str (cells c)) -> is_na_token s = false -> to_numeric_str s = None ->
   is_numeric_with_na c = (false, c)) /\
  ((forall v, In v (cells c) -> is_na_token (py_str v) = false ->
      exists z f, to_numeric_str (py_str v) = Some (NInt z f) /\ (Z.abs z <= 2 ^ 53)%Z) ->
   existsb (fun v => negb (is_na_token (py_str v))) (cells c) = true ->
   is_numeric_with_na c =
     (true, mkcol DNInt64 (map (fun v => if is_na_token (py_str v) then CNA
                                         else match to_numeric_str (py_str v) with
                                              | Some (NInt z _) => CInt z
                                              | _ => CNA
                                              end) (cells c)))).
Proof.
  split; [|split].
  - intros Hn. eapply Forall2_impl; [|exact (is_numeric_missing c r Hn)].
    intros v w Hw. cbv beta in Hw. rewrite Hw. apply mem_In.
  - apply is_numeric_unparsable.
  - apply is_numeric_small_ints.
Qed.

Lemma C8_exact_tokens_witness :
  @is_numeric_with_na Demo.pandas_demo (mkcol DObject (strs ["1"; " NA "; "n/a"; "-"; "42"]))
    = (true, mkcol DNInt64 [CInt 1; CNA; CNA; CNA; CInt 42]) /\
  Forall2 (fun v w => is_missing w = true <-> In (PyStr.strip (py_str v)) na_values)
          (strs ["1"; " NA "; "n/a"; "-"; "42"]) [CInt 1; CNA; CNA; CNA; CInt 42] /\
  @is_numeric_with_na Demo.pandas_demo (mkcol DObject (strs ["1"; "na"]))
    = (false, mkcol DObject (strs ["1"; "na"])) /\
  @is_numeric_with_na Demo.pandas_demo (mkcol DObject (strs ["7"; "N/A"]))
    = (true, mkcol DNInt64 [CInt 7; CNA]).
Proof.
  assert (H1 : @is_numeric_with_na Demo.pandas_demo
                 (mkcol DObject (strs ["1"; " NA "; "n/a"; "-"; "42"]))
               = (true, mkcol DNInt64 [CInt 1; CNA; CNA; CNA; CInt 42])) by reflexivity.
  split; [exact H1|].
  destruct (@C8_exact_tokens Demo.pandas_demo
              (mkcol DObject (strs ["1"; " NA "; "n/a"; "-"; "42"]))
              (mkcol DNInt64 [CInt 1; CNA; CNA; CNA; CInt 42]) "") as [Ha _].
  split; [exact (Ha H1)|].
  destruct (@C8_exact_tokens Demo.pandas_demo (mkcol DObject (strs ["1"; "na"]))
              (mkcol DObject []) "na") as [_ [Hb _]].
  split; [apply Hb; [simpl; auto|reflexivity|reflexivity]|].
  destruct (@C8_exact_tokens Demo.pandas_demo (mkcol DObject (strs ["7"; "N/A"]))
              (mkcol DObject []) "") as [_ [_ Hc]].
  rewrite Hc; [reflexivity| |reflexivity].
  intros v [<-|[<-|[]]] Ht; [|discriminate].
  exists 7%Z. eexists. split; [reflexivity|lia].
Defined.
(** The ratio test of [is_categorical], [n_unique / n_total < 0.5], is
    [2 * n_unique < n_total]. *)
Lemma ratio_below_half (nu nt : nat) :
  (0 < nt)%nat ->
  negb (Qle_bool (1 # 2) (inject_Z (Z.of_nat nu) / inject_Z (Z.of_nat nt))) = true
  <-> (2 * nu < nt)%nat.
Proof.
  intros Hnt. destruct nt as [|k]; [lia|].
  rewrite negb_true_iff.
  assert (Hq : Qle_bool (1 # 2) (inject_Z (Z.of_nat nu) / inject_Z (Z.of_nat (S k))) = true
               <-> (Z.of_nat (S k) <= Z.of_nat nu * 2)%Z).
  { rewrite Qle_bool_iff. rewrite Nat2Z.inj_succ, <- Zpos_P_of_succ_nat.
    unfold Qle, Qdiv, Qmult, Qinv, inject_Z. simpl. lia. }
  split; intros H.
  - destruct (Z_le_gt_dec (Z.of_nat (S k)) (Z.of_nat nu * 2)) as [Hle|Hgt];
      [apply Hq in Hle; congruence|lia].
  - apply not_true_iff_false. intros E. apply Hq in E. lia.
Qed.

Lemma ratio_part (nu nt : nat) :
  ((0 <? nt) && negb (Qle_bool (1 # 2) (inject_Z (Z.of_nat nu) / inject_Z (Z.of_nat nt)))
   && (10 <=? nt))%nat = true
  <-> (2 * nu < nt /\ 10 <= nt)%nat.
Proof.
  rewrite !andb_true_iff, Nat.ltb_lt, Nat.leb_le. split.
  - intros [[H0 Hr] H10]. split; [|exact H10]. now apply (ratio_below_half nu nt H0).
  - intros [Hr H10]. assert (H0 : (0 < nt)%nat) by lia.
    split; [split; [exact H0|] |exact H10]. now apply (ratio_below_half nu nt H0).
Qed.

(** The three cases of [is_categorical]. *)
Lemma is_categorical_spec (series : column) :
  is_categorical series = true <->
  (dtype_of series = DCategory \/
   (dtype_of series = DObject /\ List.length (unique (dropna (cells series))) <= 10 /\
    Forall (fun x => String.length (py_str x) = 1) (unique (dropna (cells series)))) \/
   (2 * List.length (unique (dropna (cells series))) < List.length (dropna (cells series)) /\
    10 <= List.length (dropna (cells series))))%nat.
Proof.
  unfold is_categorical, is_categorical_t.
  set (u := unique (dropna (cells series))). set (d := dropna (cells series)).
  assert (Hb : forall t,
    (dtype_eqb t DObject &&
     ((List.length u <=? 10) && forallb (fun x => String.length (py_str x) =? 1) u))%nat = true
    <-> (t = DObject /\ List.length u <= 10 /\
         Forall (fun x => String.length (py_str x) = 1) u)%nat).
  { intros t. rewrite !andb_true_iff, Nat.leb_le, forallb_forall, Forall_forall. split.
    - intros [Ht [Hl Hf]]. destruct t; try discriminate.
      split; [reflexivity|]. split; [exact Hl|]. intros x Hx. apply Nat.eqb_eq; auto.
    - intros [-> [Hl Hf]]. split; [reflexivity|]. split; [exact Hl|].
      intros x Hx. apply Nat.eqb_eq; auto. }
  destruct (dtype_of series) eqn:Ed; cbv beta iota;
    try (split; [intros _; now left|reflexivity]);
    rewrite orb_true_iff, Hb, ratio_part;
    (split; [intros [H|H]; [right; left|right; right]; exact H
            |intros [H|[H|H]]; [discriminate|left|right]; exact H]).
Qed.

(** C9: a textual column ([object] or [category]) that reaches the
    categorical rule (not Boolean, not numeric, the date test answering
    [False]) is
    classified as Categorical exactly when (a) it is already [category],
    or (b) it is [object] with at most 10 distinct non-missing values each
    one character long, or (c) twice its number of distinct non-missing
    values is below its number of non-missing values (ratio below 0.5)
    and it has at least 10 non-missing values; otherwise it is returned
    unchanged.  Ten distinct values among 25 qualify; 13 among 20 do
    not. *)
Theorem C9_categorical_rule `{Pandas} (series : column) :
  (dtype_of series = DObject \/ dtype_of series = DCategory) ->
  is_boolean series = false -> fst (is_numeric_with_na series) = false ->
  date_test series = inr false ->
  infer_stripped series
    = inr (if is_categorical series then mkcol DCategory (cells series) else series) /\
  (is_categorical series = true <->
   (dtype_of series = DCategory \/
    (dtype_of series = DObject /\ List.length (unique (dropna (cells series))) <= 10 /\
     Forall (fun x => String.length (py_str x) = 1) (unique (dropna (cells series)))) \/
    (2 * List.length (unique (dropna (cells series))) < List.length (dropna (cells series)) /\
     10 <= List.length (dropna (cells series))))%nat) /\
  @classify Demo.pandas_demo (mkcol DObject (strs ["aa"; "bb"; "cc"; "dd"; "ee"; "ff"; "gg"; "hh"; "ii"; "jj"; "aa"; "bb"; "cc"; "dd"; "ee"; "ff"; "gg"; "hh"; "ii"; "jj"; "aa"; "bb"; "cc"; "dd"; "ee"]))
    = inr (mkcol DCategory (strs ["aa"; "bb"; "cc"; "dd"; "ee"; "ff"; "gg"; "hh"; "ii"; "jj"; "aa"; "bb"; "cc"; "dd"; "ee"; "ff"; "gg"; "hh"; "ii"; "jj"; "aa"; "bb"; "cc"; "dd"; "ee"])) /\
  @classify Demo.pandas_demo (mkcol DObject (strs ["aa"; "bb"; "cc"; "dd"; "ee"; "ff"; "gg"; "hh"; "ii"; "jj"; "kk"; "ll"; "mm"; "aa"; "bb"; "cc"; "dd"; "ee"; "ff"; "gg"]))
    = inr (mkcol DObject (strs ["aa"; "bb"; "cc"; "dd"; "ee"; "ff"; "gg"; "hh"; "ii"; "jj"; "kk"; "ll"; "mm"; "aa"; "bb"; "cc"; "dd"; "ee"; "ff"; "gg"])).
Proof.
  intros Hd Hb Hn Hdate.
  split; [|split; [apply is_categorical_spec|split; reflexivity]].
  unfold infer_stripped.
  destruct (is_numeric_with_na series) as [isn ns] eqn:En. simpl in Hn. subst isn.
  rewrite Hb, Hdate. cbn [py_bind].
  destruct Hd as [Hd|Hd]; rewrite Hd; simpl;
    destruct (is_categorical series); reflexivity.
Qed.

Lemma C9_categorical_rule_witness :
  let c := mkcol DObject (strs ["aa"; "bb"; "cc"; "dd"; "ee"; "ff"; "gg"; "hh"; "ii"; "jj"; "aa"; "bb"; "cc"; "dd"; "ee"; "ff"; "gg"; "hh"; "ii"; "jj"; "aa"; "bb"; "cc"; "dd"; "ee"]) in
  (dtype_of c = DObject \/ dtype_of c = DCategory) /\
  is_boolean c = false /\ fst (@is_numeric_with_na Demo.pandas_demo c) = false /\
  @date_test Demo.pandas_demo c = inr false /\
  @infer_stripped Demo.pandas_demo c = inr (mkcol DCategory (cells c)).
Proof.
  intros c.
  assert (Hb : is_boolean c = false) by reflexivity.
  assert (Hn : fst (@is_numeric_with_na Demo.pandas_demo c) = false) by reflexivity.
  assert (Hdt : @date_test Demo.pandas_demo c = inr false) by reflexivity.
  split; [now left|]. split; [exact Hb|]. split; [exact Hn|]. split; [exact Hdt|].
  destruct (@C9_categorical_rule Demo.pandas_demo c (or_introl eq_refl) Hb Hn Hdt) as [Hi _].
  rewrite Hi. reflexivity.
Defined.

(* ------------------------------------------------------------------ *)
(** ** Shapes of the classifier's results *)

Lemma convert_to_boolean_dtype (series : column) :
  dtype_of (convert_to_boolean series) = DBoolean.
Proof. unfold convert_to_boolean. now destruct (_ || _). Qed.

Section Shapes.
Context `{P : Pandas}.

Lemma is_numeric_shape (series r : column) :
  is_numeric_with_na series = (true, r) -> dtype_of r = DNInt64 \/ dtype_of r = DFloat64.
Proof.
  unfold is_numeric_with_na. cbv zeta.
  destruct (to_numeric _ _) as [e|res]; [discriminate|].
  destruct (dtype_eqb _ _); [discriminate|].
  destruct (_ && _); [destruct (py_map _ _)|]; intros H; inversion H; subst; simpl; auto.
Qed.

(** Whether the numeric rule fires depends only on the values. *)
Lemma is_numeric_fst_cells (a b : column) :
  cells a = cells b -> fst (is_numeric_with_na a) = fst (is_numeric_with_na b).
Proof.
  intros Hab. unfold is_numeric_with_na. rewrite Hab. cbv zeta.
  destruct (to_numeric _ _) as [e|res]; [reflexivity|].
  destruct (dtype_eqb _ _); [reflexivity|].
  destruct (_ && _); [destruct (py_map _ _)|]; reflexivity.
Qed.

Lemma infer_stripped_shape (series r : column) :
  infer_stripped series = inr r ->
  (dtype_of r = DObject -> r = series) /\
  (dtype_of r = DCategory ->
     r = mkcol DCategory (cells series) /\ fst (is_numeric_with_na series) = false).
Proof.
  unfold infer_stripped. intros Hr.
  destruct (dtype_eqb (dtype_of series) DDatetime) eqn:E1.
  { injection Hr as <-. apply dtype_eqb_true in E1. split; intros Hd; congruence. }
  destruct (dtype_eqb (dtype_of series) DBool) eqn:E2.
  { injection Hr as <-. apply dtype_eqb_true in E2. split; intros Hd; congruence. }
  destruct (is_boolean series) eqn:E3.
  { injection Hr as <-. rewrite convert_to_boolean_dtype. split; intros Hd; discriminate. }
  destruct (is_numeric_with_na series) as [b ns] eqn:En.
  destruct b.
  { injection Hr as <-. destruct (is_numeric_shape series ns En) as [Hd|Hd];
      rewrite Hd; split; intros Hd'; discriminate. }
  destruct (date_test series) as [e|[|]] eqn:E4; cbn [py_bind] in Hr; [discriminate| |].
  { destruct (to_datetime_mixed_col (cells series)) as [[m|m|m|m]|l]; try discriminate.
    - unfold py_bind in Hr. destruct (to_datetime_col (cells series)); [discriminate|].
      injection Hr as <-. split; intros Hd; discriminate.
    - injection Hr as <-. split; intros Hd; discriminate. }
  destruct (is_categorical series) eqn:E5.
  { injection Hr as <-. split; intros Hd; [discriminate|]. auto. }
  injection Hr as <-. split; intros Hd; [reflexivity|].
  unfold is_categorical, is_categorical_t in E5. rewrite Hd in E5. discriminate.
Qed.

(** [infer_and_convert_data_types] on one column, after its [astype(str)]
    and [str.strip()]. *)
Lemma classify_pre (c : column) :
  classify c = infer_stripped
    (if dtype_eqb (dtype_of c) DObject
     then mkcol DObject (map (fun v => CStr (PyStr.strip (py_str v))) (cells c)) else c).
Proof.
  unfold classify, infer_column_type.
  destruct (dtype_of c) eqn:Ed; simpl; try (rewrite Ed; reflexivity).
  unfold astype_str. simpl. rewrite map_map. reflexivity.
Qed.

(** A text column the classifier makes Boolean holds a boolean at every
    position. *)
Lemma classify_text_boolean_cells (c c' : column) :
  dtype_of c = DObject -> classify c = inr c' -> dtype_of c' = DBoolean ->
  forall v, In v (cells c') -> exists b, v = CBool b.
Proof.
  intros Ho Hc Hb. rewrite (classify_object c Ho) in Hc.
  set (s := mkcol DObject (map (fun v => CStr (PyStr.strip (py_str v))) (cells c))) in Hc.
  unfold infer_stripped in Hc. cbn [s dtype_of dtype_eqb] in Hc.
  destruct (is_boolean s) eqn:Eb.
  - injection Hc as <-. unfold convert_to_boolean.
    cbn [s dtype_of is_int_dtype dtype_eqb orb cells].
    intros v Hv. apply in_map_iff in Hv as [x [<- Hx]].
    assert (Hn : notna x = true).
    { apply in_map_iff in Hx as [u [<- _]]. reflexivity. }
    rewrite Hn.
    unfold is_boolean in Eb. cbn [s dtype_of is_int_dtype dtype_eqb cells] in Eb.
    rewrite forallb_forall in Eb. specialize (Eb x (in_dropna _ _ Hx Hn)).
    destruct (bool_map_total _ Eb) as [b Hbm]. rewrite Hbm. now exists b.
  - destruct (is_numeric_with_na s) as [[|] ns] eqn:En.
    + injection Hc as <-. destruct (is_numeric_shape _ _ En) as [Hd|Hd]; congruence.
    + destruct (date_test s) as [e|[|]]; cbn [py_bind] in Hc; [discriminate| |].
      * destruct (to_datetime_mixed_col _) as [[m|m|m|m]|l]; try discriminate.
        -- unfold py_bind in Hc. destruct (to_datetime_col _); [discriminate|].
           injection Hc as <-. discriminate.
        -- injection Hc as <-. discriminate.
      * destruct (is_categorical s); injection Hc as <-; discriminate.
Qed.

End Shapes.

(** Booleans have at most two distinct values. *)
Lemma unique_aux_bools (seen l : list cell) :
  (forall v, In v l -> exists b, v = CBool b) ->
  (List.length (unique_aux seen l) <=
     (if existsb (py_eqb (CBool true)) seen then 0 else 1) +
     (if existsb (py_eqb (CBool false)) seen then 0 else 1))%nat.
Proof.
  revert seen. induction l as [|x r IH]; intros seen H; cbn [unique_aux List.length]; [lia|].
  destruct (H x (or_introl eq_refl)) as [b ->].
  assert (Hr : forall v, In v r -> exists b, v = CBool b) by (intros v Hv; apply H; now right).
  destruct (existsb (py_eqb (CBool b)) seen) eqn:E; [exact (IH seen Hr)|].
  specialize (IH (CBool b :: seen) Hr). cbn [existsb List.length] in *.
  destruct b.
  - change (py_eqb (CBool true) (CBool true)) with true in IH.
    change (py_eqb (CBool false) (CBool true)) with false in IH.
    rewrite E. cbn [orb] in IH.
    destruct (existsb (py_eqb (CBool false)) seen); lia.
  - change (py_eqb (CBool true) (CBool false)) with false in IH.
    change (py_eqb (CBool false) (CBool false)) with true in IH.
    rewrite E. cbn [orb] in IH.
    destruct (existsb (py_eqb (CBool true)) seen); lia.
Qed.

Lemma unique_bools_le_2 (l : list cell) :
  (forall v, In v l -> exists b, v = CBool b) -> (List.length (unique l) <= 2)%nat.
Proof. intros H. pose proof (unique_aux_bools [] l H) as Hb. cbn in Hb. unfold unique. lia. Qed.

Lemma dropna_bools (l : list cell) :
  (forall v, In v l -> exists b, v = CBool b) -> dropna l = l.
Proof.
  unfold dropna. induction l as [|x r IH]; intros H; [reflexivity|].
  destruct (H x (or_introl eq_refl)) as [b ->]. cbn [filter notna is_missing negb].
  f_equal. apply IH. intros v Hv. apply H. now right.
Qed.

(** C5 (code bug): the classifier is not idempotent on its Boolean
    output.  A text column it classifies as Boolean ([boolean] dtype)
    holds only booleans; classifying that column again, the pass-through
    test [series.dtype == 'bool'] misses the [boolean] dtype, [is_boolean]
    refuses it, the strings "True"/"False" do not parse as numbers, and
    with ten values or more the two distinct values make the ratio test
    of [is_categorical] succeed: the column comes back Categorical. *)
Theorem C5_boolean_output_not_fixed `{Pandas} (c c' : column) :
  to_numeric_str "True" = None -> to_numeric_str "False" = None ->
  dtype_of c = DObject -> classify c = inr c' -> dtype_of c' = DBoolean ->
  (10 <= List.length (cells c'))%nat ->
  classify c' = inr (mkcol DCategory (cells c')).
Proof.
  intros HT HF Ho Hc Hb Hlen.
  pose proof (classify_text_boolean_cells c c' Ho Hc Hb) as Hcb.
  rewrite classify_pre, Hb. cbn [dtype_eqb]. unfold infer_stripped. rewrite Hb.
  cbn [dtype_eqb].
  assert (Hbool : is_boolean c' = false) by (unfold is_boolean; now rewrite Hb).
  rewrite Hbool.
  assert (Hn : is_numeric_with_na c' = (false, c')).
  { destruct (cells c') as [|v0 vs] eqn:Ec; [cbn in Hlen; lia|].
    destruct (Hcb v0 ltac:(rewrite ?Ec; now left)) as [b0 Hv0].
    apply (is_numeric_unparsable c' (py_str v0)).
    - rewrite Ec. now left.
    - rewrite Hv0. destruct b0; reflexivity.
    - rewrite Hv0. destruct b0; assumption. }
  rewrite Hn. cbn [py_bind]. unfold date_test. rewrite Hb. cbn [dtype_eqb py_bind].
  assert (Hd : dropna (cells c') = cells c') by (apply dropna_bools; exact Hcb).
  assert (Hcat : is_categorical c' = true).
  { apply is_categorical_spec. right. right. rewrite Hd.
    pose proof (unique_bools_le_2 (cells c') Hcb). lia. }
  now rewrite Hcat.
Qed.

Lemma C5_boolean_output_not_fixed_witness :
  @to_numeric_str Demo.pandas_demo "True" = None /\
  @to_numeric_str Demo.pandas_demo "False" = None /\
  dtype_of (mkcol DObject (strs (repeat "yes" 10))) = DObject /\
  @classify Demo.pandas_demo (mkcol DObject (strs (repeat "yes" 10)))
    = inr (mkcol DBoolean (repeat (CBool true) 10)) /\
  dtype_of (mkcol DBoolean (repeat (CBool true) 10)) = DBoolean /\
  (10 <= List.length (cells (mkcol DBoolean (repeat (CBool true) 10))))%nat /\
  @classify Demo.pandas_demo (mkcol DBoolean (repeat (CBool true) 10))
    = inr (mkcol DCategory (repeat (CBool true) 10)).
Proof.
  assert (HT : @to_numeric_str Demo.pandas_demo "True" = None) by reflexivity.
  assert (HF : @to_numeric_str Demo.pandas_demo "False" = None) by reflexivity.
  assert (Hc : @classify Demo.pandas_demo (mkcol DObject (strs (repeat "yes" 10)))
               = inr (mkcol DBoolean (repeat (CBool true) 10))) by reflexivity.
  assert (Hl : (10 <= List.length (cells (mkcol DBoolean (repeat (CBool true) 10))))%nat)
    by (cbn; lia).
  split; [exact HT|]. split; [exact HF|]. split; [reflexivity|]. split; [exact Hc|].
  split; [reflexivity|]. split; [exact Hl|].
  exact (@C5_boolean_output_not_fixed Demo.pandas_demo
           (mkcol DObject (strs (repeat "yes" 10))) (mkcol DBoolean (repeat (CBool true) 10))
           HT HF eq_refl Hc eq_refl Hl).
Defined.

(** Classifying the classifier's own output again leaves it unchanged
    (same dtype, same values) when that output is Text ([object]),
    DateTime or Categorical. *)
Theorem reclassify_text_datetime_categorical `{Pandas} (c c' : column) :
  classify c = inr c' ->
  (dtype_of c' = DObject \/ dtype_of c' = DDatetime \/ dtype_of c' = DCategory) ->
  classify c' = inr c'.
Proof.
  intros Hc Hd. rewrite classify_pre in Hc.
  set (pre := if dtype_eqb (dtype_of c) DObject
              then mkcol DObject (map (fun v => CStr (PyStr.strip (py_str v))) (cells c))
              else c) in Hc.
  destruct (infer_stripped_shape pre c' Hc) as [Hobj Hcat].
  destruct Hd as [Hd|[Hd|Hd]].
  - (* Text: the stripped strings are stripped again to themselves. *)
    pose proof (Hobj Hd) as Heq.
    destruct (dtype_of c) eqn:Ec; unfold pre in Heq; simpl in Heq;
      try (rewrite Heq in Hd; rewrite Ec in Hd; discriminate).
    unfold pre in Hc. cbn [dtype_eqb] in Hc.
    subst c'. rewrite classify_pre. cbn [dtype_of cells dtype_eqb].
    rewrite map_map.
    replace (map (fun x => CStr (PyStr.strip (py_str (CStr (PyStr.strip (py_str x))))))
                 (cells c))
      with (map (fun v => CStr (PyStr.strip (py_str v))) (cells c)); [exact Hc|].
    apply map_ext. intros v. simpl. now rewrite strip_idem.
  - rewrite classify_pre, Hd. simpl. unfold infer_stripped. now rewrite Hd.
  - destruct (Hcat Hd) as [Heq Hn].
    rewrite classify_pre, Hd. cbn [dtype_eqb]. unfold infer_stripped. rewrite Hd.
    cbn [dtype_eqb].
    assert (Hb : is_boolean c' = false) by (unfold is_boolean; now rewrite Hd).
    rewrite Hb.
    assert (Hn' : fst (is_numeric_with_na c') = false).
    { rewrite (is_numeric_fst_cells c' pre); [exact Hn|]. now rewrite Heq. }
    destruct (is_numeric_with_na c') as [b ns]. simpl in Hn'. subst b.
    unfold date_test. rewrite Hd. cbn [dtype_eqb py_bind].
    unfold is_categorical, is_categorical_t. rewrite Hd. rewrite Heq. reflexivity.
Qed.

Lemma reclassify_text_datetime_categorical_witness :
  @classify Demo.pandas_demo (mkcol DObject (strs [" red"; "blue "; "red"; "green"]))
    = inr (mkcol DObject (strs ["red"; "blue"; "red"; "green"])) /\
  (dtype_of (mkcol DObject (strs ["red"; "blue"; "red"; "green"])) = DObject \/
   dtype_of (mkcol DObject (strs ["red"; "blue"; "red"; "green"])) = DDatetime \/
   dtype_of (mkcol DObject (strs ["red"; "blue"; "red"; "green"])) = DCategory) /\
  @classify Demo.pandas_demo (mkcol DObject (strs ["red"; "blue"; "red"; "green"]))
    = inr (mkcol DObject (strs ["red"; "blue"; "red"; "green"])).
Proof.
  assert (H1 : @classify Demo.pandas_demo (mkcol DObject (strs [" red"; "blue "; "red"; "green"]))
    = inr (mkcol DObject (strs ["red"; "blue"; "red"; "green"]))) by reflexivity.
  split; [exact H1|]. split; [now left|].
  exact (@reclassify_text_datetime_categorical Demo.pandas_demo _ _ H1 (or_introl eq_refl)).
Defined.

(* ------------------------------------------------------------------ *)
(** ** Further properties of the code *)

(** *** Lengths *)

Section LengthFacts.
Context `{P : Pandas}.

Lemma is_numeric_length (s r : column) (b : bool) :
  is_numeric_with_na s = (b, r) -> List.length (cells r) = List.length (cells s).
Proof.
  unfold is_numeric_with_na. cbv zeta.
  destruct (to_numeric _ _) as [e|res]; [intros H; now inversion H|].
  destruct (dtype_eqb _ _); [intros H; now inversion H|].
  destruct (_ && _); [destruct (py_map float_to_Int64 _) as [e|l] eqn:Ep|];
    intros H; inversion H; subst; cbn [cells]; try reflexivity.
  - rewrite (py_map_length _ _ _ Ep), fill_na_length. now rewrite !length_map.
  - rewrite fill_na_length. now rewrite !length_map.
Qed.

Lemma to_datetime_mixed_col_length (l l' : list cell) :
  to_datetime_mixed_col l = inr l' -> List.length l' = List.length l.
Proof. unfold to_datetime_mixed_col. apply py_map_length. Qed.

Lemma infer_stripped_length (s r : column) :
  infer_stripped s = inr r -> List.length (cells r) = List.length (cells s).
Proof.
  unfold infer_stripped. intros Hr.
  destruct (dtype_eqb (dtype_of s) DDatetime); [now injection Hr as <-|].
  destruct (dtype_eqb (dtype_of s) DBool); [now injection Hr as <-|].
  destruct (is_boolean s).
  { injection Hr as <-. unfold convert_to_boolean.
    destruct (_ || _); simpl; now rewrite length_map. }
  destruct (is_numeric_with_na s) as [b ns] eqn:En.
  destruct b; [injection Hr as <-; exact (is_numeric_length _ _ _ En)|].
  destruct (date_test s) as [e|[|]]; cbn [py_bind] in Hr; [discriminate| |].
  { destruct (to_datetime_mixed_col (cells s)) as [[m|m|m|m]|l] eqn:Em; try discriminate.
    - unfold py_bind in Hr. destruct (to_datetime_col (cells s)) as [|l] eqn:Ed;
        [discriminate|].
      injection Hr as <-. exact (py_map_length _ _ _ Ed).
    - injection Hr as <-. exact (to_datetime_mixed_col_length _ _ Em). }
  destruct (is_categorical s); now injection Hr as <-.
Qed.

Lemma classify_length (c c' : column) :
  classify c = inr c' -> List.length (cells c') = List.length (cells c).
Proof.
  rewrite classify_pre. intros H. rewrite (infer_stripped_length _ _ H).
  destruct (dtype_eqb (dtype_of c) DObject); simpl; [now rewrite length_map|reflexivity].
Qed.

Lemma astype_boolean_length (c c' : column) :
  astype_boolean c = inr c' -> List.length (cells c') = List.length (cells c).
Proof.
  unfold astype_boolean. intros H.
  destruct (dtype_of c);
    try (destruct (infer_dtype (cells c)));
    try (now injection H as <-);
    try (injection H as <-; simpl; now rewrite length_map);
    try discriminate;
    (unfold py_bind in H; destruct (py_map bool_of_01 (cells c)) as [|l] eqn:E; [discriminate|];
     injection H as <-; exact (py_map_length _ _ _ E)).
Qed.

Lemma convert_column_length (t : string) (c c' : column) :
  convert_column t c = inr c' -> List.length (cells c') = List.length (cells c).
Proof.
  unfold convert_column. intros H.
  destruct (String.eqb t "datetime64[ns]").
  { unfold py_bind in H. destruct (to_datetime_col (cells c)) as [|l] eqn:E; [discriminate|].
    injection H as <-. exact (py_map_length _ _ _ E). }
  destruct (String.eqb t "category"); [now injection H as <-|].
  destruct (String.eqb t "int64").
  { unfold py_bind in H. destruct (to_numeric true c) as [|r] eqn:E; [discriminate|].
    rewrite (astype_Int64_length _ _ H). exact (to_numeric_length _ _ _ E). }
  destruct (String.eqb t "float64"); [exact (to_numeric_length _ _ _ H)|].
  destruct (String.eqb t "bool"); [exact (astype_boolean_length _ _ H)|].
  now injection H as <-.
Qed.

End LengthFacts.


Lemma frame_set_shape (df : frame) (n : string) (c0 c : column) :
  frame_get df n = Some c0 -> List.length (cells c) = List.length (cells c0) ->
  frame_shape (frame_set df n c) = frame_shape df.
Proof.
  unfold frame_shape. induction df as [|[k v] r IH]; simpl; [discriminate|].
  destruct (String.eqb k n); intros Hg Hl.
  - injection Hg as <-. simpl. now rewrite Hl.
  - simpl. now rewrite (IH Hg Hl).
Qed.

Lemma frame_nrows_shape (a b : frame) :
  frame_shape a = frame_shape b -> frame_nrows a = frame_nrows b.
Proof.
  unfold frame_shape. destruct a as [|[n c] a], b as [|[m d] b]; simpl;
    try discriminate; [reflexivity|]. intros H. now injection H.
Qed.

(** *** Re-applying a conversion *)

Section ReapplyFacts.
Context `{P : Pandas}.

Lemma astype_boolean_dtype (c c' : column) :
  astype_boolean c = inr c' -> dtype_of c' = DBoolean.
Proof.
  unfold astype_boolean. intros H.
  destruct (dtype_of c) eqn:Ed;
    try (destruct (infer_dtype (cells c)));
    try (injection H as <-; first [exact Ed | reflexivity]);
    try discriminate;
    (unfold py_bind in H; destruct (py_map bool_of_01 (cells c)); [discriminate|];
     injection H as <-; reflexivity).
Qed.

Lemma astype_boolean_idem (c c' : column) :
  astype_boolean c = inr c' -> astype_boolean c' = inr c'.
Proof.
  intros H. unfold astype_boolean at 1. now rewrite (astype_boolean_dtype c c' H).
Qed.

End ReapplyFacts.

(** *** Serialized values *)

Lemma serialize_json_cell_str (numpy : bool) (v : cell) (s : string) :
  serialize_value numpy v = JStr s -> json_cell (serialize_value numpy v) = CStr s.
Proof. intros H. now rewrite H. Qed.

(** *** The validators *)

Lemma same_key_set_iff (a b : list string) :
  same_key_set a b = true <-> forall k, In k a <-> In k b.
Proof.
  unfold same_key_set. rewrite andb_true_iff, !forallb_forall. split.
  - intros [H1 H2] k. split; intros Hk; apply mem_In; auto.
  - intros H. split; intros k Hk; apply mem_In, H; exact Hk.
Qed.

Lemma first_invalid_type_none (infos : list (string * option string)) :
  first_invalid_type infos = None <->
  forall n t, In (n, Some t) infos -> t = "" \/ In t valid_types.
Proof.
  induction infos as [|[n [t|]] r IH]; cbn [first_invalid_type In].
  - split; [tauto|reflexivity].
  - destruct (String.eqb t "") eqn:Et; cbn [negb andb].
    + apply String.eqb_eq in Et. subst t. rewrite IH. split.
      * intros H m u [Hm|Hm]; [injection Hm as -> <-; now left|exact (H m u Hm)].
      * intros H m u Hm. exact (H m u (or_intror Hm)).
    + destruct (PyStr.mem t valid_types) eqn:Em; cbn [negb andb].
      * rewrite IH. split.
        -- intros H m u [Hm|Hm]; [injection Hm as -> <-; right; now apply mem_In|exact (H m u Hm)].
        -- intros H m u Hm. exact (H m u (or_intror Hm)).
      * split; [discriminate|]. intros H.
        destruct (H n t (or_introl eq_refl)) as [Ht|Ht].
        -- subst t. discriminate.
        -- apply mem_In in Ht. congruence.
  - rewrite IH. split.
    + intros H m u [Hm|Hm]; [discriminate|exact (H m u Hm)].
    + intros H m u Hm. exact (H m u (or_intror Hm)).
Qed.

Lemma first_invalid_type_some (infos : list (string * option string)) (t : string) :
  first_invalid_type infos = Some t ->
  t <> "" /\ ~ In t valid_types /\ exists n, In (n, Some t) infos.
Proof.
  induction infos as [|[n [u|]] r IH]; cbn [first_invalid_type In]; [discriminate| |].
  - destruct (negb (String.eqb u "") && negb (PyStr.mem u valid_types)) eqn:E.
    + intros H. injection H as <-. apply andb_prop in E as [E1 E2].
      apply negb_true_iff in E1, E2. split; [now apply String.eqb_neq|].
      split; [intros Hm; apply mem_In in Hm; congruence|]. eauto.
    + intros H. destruct (IH H) as [H1 [H2 [m Hm]]]. eauto.
  - intros H. destruct (IH H) as [H1 [H2 [m Hm]]]. eauto.
Qed.

(** *** File names *)

Lemma rfind_from_app (c : ascii) (a b : string) (i : nat) (acc : option nat) :
  rfind_from c (a ++ b) i acc = rfind_from c b (i + String.length a) (rfind_from c a i acc).
Proof.
  revert i acc. induction a as [|d a IH]; intros i acc; simpl.
  - now rewrite Nat.add_0_r.
  - rewrite IH. now rewrite Nat.add_succ_r.
Qed.

Lemma rfind_from_absent (c : ascii) (s : string) (i : nat) (acc : option nat) :
  str_existsb (Ascii.eqb c) s = false -> rfind_from c s i acc = acc.
Proof.
  revert i acc. induction s as [|d s IH]; intros i acc; simpl; [reflexivity|].
  intros H. apply orb_false_iff in H as [H1 H2]. rewrite H1. now apply IH.
Qed.

Lemma substring_app_l (a b : string) : substring 0 (String.length a) (a ++ b) = a.
Proof. induction a as [|c a IH]; simpl; [now destruct b|]. now rewrite IH. Qed.

Lemma substring_all (s : string) : substring 0 (String.length s) s = s.
Proof. induction s as [|c s IH]; simpl; [reflexivity|]. now rewrite IH. Qed.

Lemma substring_app_r (a b : string) :
  substring (String.length a) (String.length (a ++ b) - String.length a) (a ++ b) = b.
Proof.
  induction a as [|c a IH]; simpl.
  - rewrite Nat.sub_0_r. apply substring_all.
  - exact IH.
Qed.

(** [splitext] of [base.ext] for a base name with no separator and a
    character other than a dot, and an extension with neither. *)
Lemma splitext_simple (b e : string) :
  str_existsb (fun c => negb (Ascii.eqb c "."%char)) b = true ->
  str_existsb (Ascii.eqb "/"%char) b = false ->
  str_existsb (Ascii.eqb "."%char) e = false ->
  str_existsb (Ascii.eqb "/"%char) e = false ->
  splitext (b ++ "." ++ e) = (b, "." ++ e).
Proof.
  intros Hb Hbs He Hes. unfold splitext, rfind.
  rewrite !rfind_from_app. simpl.
  rewrite (rfind_from_absent "."%char e _ _ He).
  rewrite (rfind_from_absent "/"%char b _ _ Hbs).
  rewrite (rfind_from_absent "/"%char e _ _ Hes). simpl.
  rewrite Nat.sub_0_r, substring_app_l, Hb.
  now rewrite (substring_app_r b (String "." e)).
Qed.

Lemma splitext_no_dot (p : string) :
  str_existsb (Ascii.eqb "."%char) p = false -> splitext p = (p, "").
Proof.
  intros H. unfold splitext, rfind. now rewrite (rfind_from_absent _ _ _ _ H).
Qed.


(* ------------------------------------------------------------------ *)
(** ** Helpers for the properties beyond the claims *)

Lemma dropna_strs (f : cell -> string) (l : list cell) :
  dropna (map (fun v => CStr (f v)) l) = map (fun v => CStr (f v)) l.
Proof. induction l as [|x r IH]; simpl; [reflexivity|]. now rewrite IH. Qed.

Lemma py_all_inl {A} (f : A -> py bool) (l : list A) (e : py_exc) :
  py_all f l = inl e -> exists x, In x l /\ f x = inl e.
Proof.
  induction l as [|x r IH]; simpl; [discriminate|].
  destruct (f x) as [e'|[|]] eqn:Ef; simpl; intros H.
  - injection H as <-. eauto.
  - destruct (IH H) as [y [Hy Hfy]]. eauto.
  - discriminate.
Qed.

Section ErrorFacts.
Context `{P : Pandas}.

Lemma is_date_inl (x : cell) (e : py_exc) :
  is_date x = inl e ->
  dateutil_parse (py_str x) = inl e /\ forall m, e <> ValueError m /\ e <> TypeError m.
Proof.
  unfold is_date. destruct (dateutil_parse (py_str x)) as [[m|m|m|m]|u]; intros H;
    try discriminate; injection H as <-; split; try reflexivity;
    intros m'; split; discriminate.
Qed.

Lemma to_datetime_col_inl (l : list cell) (e : py_exc) :
  to_datetime_col l = inl e ->
  exists x m, In x l /\ is_missing x = false /\ to_datetime_default x = inl m /\ e = ValueError m.
Proof.
  unfold to_datetime_col. intros H. destruct (py_map_inl_in _ _ _ H) as [x [Hx Hf]].
  destruct (is_missing x) eqn:Em; [discriminate|].
  destruct (to_datetime_default x) as [m|y] eqn:Ed; [|discriminate].
  injection Hf as <-. eauto 7.
Qed.

(** Where [infer_column_type] can raise: in [is_date], in the mixed-format
    [pd.to_datetime] (an exception other than [ValueError]), or in the
    default [pd.to_datetime] after the mixed one raised [ValueError]. *)
Lemma infer_stripped_inl (s : column) (e : py_exc) :
  infer_stripped s = inl e ->
  dtype_of s = DObject /\
  ((exists x, In x (dropna (cells s)) /\ is_date x = inl e) \/
   (py_all is_date (dropna (cells s)) = inr true /\
    ((to_datetime_mixed_col (cells s) = inl e /\ forall m, e <> ValueError m) \/
     ((exists m, to_datetime_mixed_col (cells s) = inl (ValueError m)) /\
      to_datetime_col (cells s) = inl e)))).
Proof.
  unfold infer_stripped. intros Hr.
  destruct (dtype_eqb (dtype_of s) DDatetime); [discriminate|].
  destruct (dtype_eqb (dtype_of s) DBool); [discriminate|].
  destruct (is_boolean s); [discriminate|].
  destruct (is_numeric_with_na s) as [b ns]. destruct b; [discriminate|].
  unfold date_test in Hr.
  destruct (dtype_eqb (dtype_of s) DObject) eqn:Eo; cbn [py_bind] in Hr;
    [|destruct (is_categorical s); discriminate].
  apply dtype_eqb_true in Eo. split; [exact Eo|].
  destruct (py_all is_date (dropna (cells s))) as [e'|[|]] eqn:Ea; cbn [py_bind] in Hr.
  - injection Hr as <-. left. exact (py_all_inl _ _ _ Ea).
  - right. split; [reflexivity|].
    destruct (to_datetime_mixed_col (cells s)) as [[m|m|m|m]|l] eqn:Em; try discriminate;
      try (injection Hr as <-; left; split; [reflexivity|intros m'; discriminate]).
    right. split; [eauto|].
    unfold py_bind in Hr. destruct (to_datetime_col (cells s)) as [e'|l']; [|discriminate].
    now injection Hr as <-.
  - destruct (is_categorical s); discriminate.
Qed.

(** A text column the classifier turns into an Integer or Float column:
    a value becomes missing exactly when it is a missing-value token. *)
Lemma classify_numeric_missing (c c' : column) :
  dtype_of c = DObject -> classify c = inr c' ->
  (dtype_of c' = DNInt64 \/ dtype_of c' = DFloat64) ->
  Forall2 (fun v w => is_missing w = is_na_token (py_str v)) (cells c) (cells c').
Proof.
  intros Ho Hc Hd. rewrite (classify_object c Ho) in Hc.
  set (s := mkcol DObject (map (fun v => CStr (PyStr.strip (py_str v))) (cells c))) in Hc.
  unfold infer_stripped in Hc. cbn [s dtype_of dtype_eqb] in Hc.
  destruct (is_boolean s).
  { injection Hc as <-. rewrite convert_to_boolean_dtype in Hd. destruct Hd; discriminate. }
  destruct (is_numeric_with_na s) as [[|] ns] eqn:En.
  - injection Hc as <-.
    pose proof (is_numeric_missing s ns En) as Hf.
    cbn [s cells] in Hf. apply Forall2_map_l in Hf.
    eapply Forall2_impl; [|exact Hf]. intros v w Hvw. cbv beta in Hvw.
    rewrite Hvw. cbn [py_str]. unfold is_na_token. now rewrite strip_idem.
  - destruct (date_test s) as [e|[|]]; cbn [py_bind] in Hc; [discriminate| |].
    + destruct (to_datetime_mixed_col _) as [[m|m|m|m]|l]; try discriminate.
      * unfold py_bind in Hc. destruct (to_datetime_col _); [discriminate|].
        injection Hc as <-. destruct Hd; discriminate.
      * injection Hc as <-. destruct Hd; discriminate.
    + destruct (is_categorical s); injection Hc as <-; destruct Hd as [Hd|Hd];
        cbn in Hd; discriminate.
Qed.

(** [infer_and_convert_data_types], when it returns, keeps the shape. *)
Lemma infer_and_convert_shape (df df' : frame) :
  infer_and_convert_data_types df = inr df' -> frame_shape df' = frame_shape df.
Proof.
  unfold infer_and_convert_data_types, frame_shape.
  revert df'. induction df as [|[n c] r IH]; intros df' Hdf; simpl in Hdf.
  - now injection Hdf as <-.
  - destruct (classify c) as [e|c'] eqn:Ec; [discriminate|]. simpl in Hdf.
    destruct (py_map _ r) as [e|r'] eqn:Er; [discriminate|]. simpl in Hdf.
    injection Hdf as <-. simpl. rewrite (classify_length _ _ Ec). now rewrite (IH _ eq_refl).
Qed.

End ErrorFacts.

(* ------------------------------------------------------------------ *)
(** ** Properties of the code beyond the claims *)

(** [serialize_value] returns [None] exactly for the missing values
    ([None], [nan], [pd.NA], [pd.NaT]) and, when numbers reach it as NumPy
    scalars, for [inf] and [-inf] (the [np.isinf] test). *)
Theorem serialize_value_null_cases (numpy : bool) (v : cell) :
  serialize_value numpy v = JNull <->
  is_missing v = true \/ (numpy = true /\ exists b, v = CInf b).
Proof.
  unfold serialize_value.
  destruct v; destruct numpy; cbn; split; intros H;
    try discriminate; try (left; reflexivity); try reflexivity;
    try (right; split; [reflexivity|eexists; reflexivity]);
    destruct H as [H|[H1 [b0 H2]]]; discriminate.
Qed.

(** A preview column holding a Python [bool] cannot be sent back as it is
    with target type [bool]: [serialize_value] turns the boolean into the
    string ["True"]/["False"], and [astype('boolean')] of the rebuilt
    object column raises "Need to pass bool-like values". *)
Theorem boolean_preview_not_resubmittable `{Pandas} (numpy : bool) (l : list cell) (b : bool) :
  In (CBool b) l ->
  convert_column "bool"
    (mkcol DObject (map (fun v => json_cell (serialize_value numpy v)) l))
  = inl need_bool_like.
Proof.
  intros Hin. unfold convert_column. cbn -[astype_boolean]. unfold astype_boolean. simpl.
  assert (Hs : In (CStr (py_str (CBool b)))
                 (map (fun v => json_cell (serialize_value numpy v)) l)).
  { apply in_map_iff. exists (CBool b). split; [|exact Hin].
    destruct b; reflexivity. }
  now rewrite (infer_dtype_str _ _ Hs).
Qed.

Lemma boolean_preview_not_resubmittable_witness :
  In (CBool true) [CBool true; CNA; CBool false] /\
  @convert_column Demo.pandas_demo "bool"
    (mkcol DObject (map (fun v => json_cell (serialize_value false v))
                        [CBool true; CNA; CBool false]))
  = inl need_bool_like.
Proof.
  split; [simpl; auto|].
  exact (@boolean_preview_not_resubmittable Demo.pandas_demo false
           [CBool true; CNA; CBool false] true (or_introl eq_refl)).
Defined.



(** A successful conversion other than to [datetime64[ns]], applied again
    to its own result, changes nothing. *)
Theorem convert_column_reapply `{Pandas} (new_type : string) (c c' : column) :
  new_type <> "datetime64[ns]" ->
  convert_column new_type c = inr c' -> convert_column new_type c' = inr c'.
Proof.
  intros Hnd Hc. unfold convert_column in *.
  assert (E1 : String.eqb new_type "datetime64[ns]" = false) by now apply String.eqb_neq.
  rewrite E1 in *.
  destruct (String.eqb new_type "category") eqn:E2.
  { now injection Hc as <-. }
  destruct (String.eqb new_type "int64") eqn:E3.
  { unfold py_bind in Hc. destruct (to_numeric true c) as [e|r]; [discriminate|].
    pose proof (astype_Int64_dtype _ _ Hc) as Hd.
    unfold to_numeric at 1. rewrite Hd. cbn [py_bind].
    unfold astype_Int64. now rewrite Hd. }
  destruct (String.eqb new_type "float64") eqn:E4.
  { exact (to_numeric_coerce_idem c c' Hc). }
  destruct (String.eqb new_type "bool") eqn:E5.
  { exact (astype_boolean_idem c c' Hc). }
  now injection Hc as <-.
Qed.

Lemma convert_column_reapply_witness :
  "float64" <> "datetime64[ns]" /\
  @convert_column Demo.pandas_demo "float64" (mkcol DObject (strs ["1.5"; "x"; "2"]))
    = inr (mkcol DFloat64 [CFloat (mkdec 15 1); CNaN; CFloat (mkdec 2 0)]) /\
  @convert_column Demo.pandas_demo "float64"
    (mkcol DFloat64 [CFloat (mkdec 15 1); CNaN; CFloat (mkdec 2 0)])
    = inr (mkcol DFloat64 [CFloat (mkdec 15 1); CNaN; CFloat (mkdec 2 0)]).
Proof.
  assert (Hc : @convert_column Demo.pandas_demo "float64" (mkcol DObject (strs ["1.5"; "x"; "2"]))
    = inr (mkcol DFloat64 [CFloat (mkdec 15 1); CNaN; CFloat (mkdec 2 0)])) by reflexivity.
  assert (Hn : "float64" <> "datetime64[ns]") by discriminate.
  split; [exact Hn|]. split; [exact Hc|].
  exact (@convert_column_reapply Demo.pandas_demo _ _ _ Hn Hc).
Defined.



(** A successful request keeps every column of the table with its number of
    values: the names, their order and the row count do not change. *)
Theorem convert_all_keeps_shape `{Pandas} (new_types : list (string * string)) (df df' : frame) :
  convert_all new_types df = inr df' -> frame_shape df' = frame_shape df.
Proof.
  revert df. induction new_types as [|[n t] rest IH]; intros df Hc; simpl in Hc.
  - now injection Hc as <-.
  - destruct (frame_get df n) as [c|] eqn:Eg; [|discriminate].
    destruct (convert_column t c) as [x|c'] eqn:Ec; [discriminate|].
    rewrite (IH _ Hc). apply (frame_set_shape _ _ c); [exact Eg|].
    exact (convert_column_length _ _ _ Ec).
Qed.

Lemma convert_all_keeps_shape_witness :
  @convert_all Demo.pandas_demo [("Score", "int64")]
    [("Name", mkcol DObject (strs ["Ann"; "Bob"])); ("Score", mkcol DObject (strs ["90"; "abc"]))]
  = inr [("Name", mkcol DObject (strs ["Ann"; "Bob"])); ("Score", mkcol DNInt64 [CInt 90; CNA])] /\
  frame_shape [("Name", mkcol DObject (strs ["Ann"; "Bob"])); ("Score", mkcol DNInt64 [CInt 90; CNA])]
  = frame_shape [("Name", mkcol DObject (strs ["Ann"; "Bob"])); ("Score", mkcol DObject (strs ["90"; "abc"]))].
Proof.
  assert (Hc : @convert_all Demo.pandas_demo [("Score", "int64")]
    [("Name", mkcol DObject (strs ["Ann"; "Bob"])); ("Score", mkcol DObject (strs ["90"; "abc"]))]
    = inr [("Name", mkcol DObject (strs ["Ann"; "Bob"])); ("Score", mkcol DNInt64 [CInt 90; CNA])])
    by reflexivity.
  split; [exact Hc|]. exact (@convert_all_keeps_shape Demo.pandas_demo _ _ _ Hc).
Defined.

(** [infer_and_convert_data_types], when it returns, keeps every column
    with its name, its position and its number of values. *)
Theorem infer_and_convert_keeps_shape `{Pandas} (df df' : frame) :
  infer_and_convert_data_types df = inr df' -> frame_shape df' = frame_shape df.
Proof. exact (infer_and_convert_shape df df'). Qed.

Lemma infer_and_convert_keeps_shape_witness :
  @infer_and_convert_data_types Demo.pandas_demo
    [("n", mkcol DObject (strs ["NA"; "1"])); ("b", mkcol DObject (strs ["yes"; "no"]))]
  = inr [("n", mkcol DNInt64 [CNA; CInt 1]); ("b", mkcol DBoolean [CBool true; CBool false])] /\
  frame_shape [("n", mkcol DNInt64 [CNA; CInt 1]); ("b", mkcol DBoolean [CBool true; CBool false])]
  = frame_shape [("n", mkcol DObject (strs ["NA"; "1"])); ("b", mkcol DObject (strs ["yes"; "no"]))].
Proof.
  assert (Hc : @infer_and_convert_data_types Demo.pandas_demo
    [("n", mkcol DObject (strs ["NA"; "1"])); ("b", mkcol DObject (strs ["yes"; "no"]))]
    = inr [("n", mkcol DNInt64 [CNA; CInt 1]); ("b", mkcol DBoolean [CBool true; CBool false])])
    by reflexivity.
  split; [exact Hc|]. exact (@infer_and_convert_keeps_shape Demo.pandas_demo _ _ Hc).
Defined.

(** The classifier raises only for an object column, in its date step:
    either [dateutil.parser.parse] of a stripped value raises an exception
    other than [ValueError] and [TypeError] (which [is_date] does not
    catch), or every value passed [is_date] and then the mixed-format
    [pd.to_datetime] raises an exception other than [ValueError], or it
    raises [ValueError] and the default [pd.to_datetime] raises the
    [ValueError] of one of the stripped values. *)
Theorem classify_raises_only_on_dates `{Pandas} (c : column) (e : py_exc) :
  classify c = inl e ->
  dtype_of c = DObject /\
  ((exists v, In v (cells c) /\ dateutil_parse (PyStr.strip (py_str v)) = inl e /\
              forall m, e <> ValueError m /\ e <> TypeError m) \/
   (py_all is_date (map (fun v => CStr (PyStr.strip (py_str v))) (cells c)) = inr true /\
    ((to_datetime_mixed_col (map (fun v => CStr (PyStr.strip (py_str v))) (cells c)) = inl e /\
      forall m, e <> ValueError m) \/
     ((exists m, to_datetime_mixed_col (map (fun v => CStr (PyStr.strip (py_str v))) (cells c))
                 = inl (ValueError m)) /\
      exists v m, In v (cells c) /\
                  to_datetime_default (CStr (PyStr.strip (py_str v))) = inl m /\
                  e = ValueError m)))).
Proof.
  rewrite classify_pre. intros Hc.
  destruct (dtype_eqb (dtype_of c) DObject) eqn:Eo.
  2:{ destruct (infer_stripped_inl _ _ Hc) as [Hd _]. rewrite Hd in Eo. discriminate. }
  apply dtype_eqb_true in Eo. split; [exact Eo|].
  destruct (infer_stripped_inl _ _ Hc) as [_ Hcases]. cbn [cells] in Hcases.
  rewrite dropna_strs in Hcases.
  destruct Hcases as [[x [Hx Hd]]|[Ha Hm]].
  - left. apply in_map_iff in Hx as [v [<- Hv]].
    destruct (is_date_inl _ _ Hd) as [Hp Hne]. exists v. auto.
  - right. split; [exact Ha|]. destruct Hm as [Hm|[Hm Ht]]; [now left|right].
    split; [exact Hm|].
    destruct (to_datetime_col_inl _ _ Ht) as [x [m [Hx [_ [Hdx ->]]]]].
    apply in_map_iff in Hx as [v [<- Hv]]. eauto.
Qed.

Lemma classify_raises_only_on_dates_witness :
  let P := {| to_numeric_str := Demo.parse_number; timestamp_value := Demo.timestamp_ns;
              dateutil_parse := (fun s => if Demo.all_digits s && (10 <? String.length s)%nat
                                          then inl (OverflowError "signed integer is greater than maximum")
                                          else Demo.parse_iso s);
              to_datetime_mixed := Demo.datetime_mixed; to_datetime_default := Demo.datetime_default;
              DataFrame := Demo.build_frame |} in
  @classify P (mkcol DObject (strs ["99999999999999999999"; "abc"]))
    = inl (OverflowError "signed integer is greater than maximum") /\
  (dtype_of (mkcol DObject (strs ["99999999999999999999"; "abc"])) = DObject /\
   ((exists v, In v (strs ["99999999999999999999"; "abc"]) /\
      @dateutil_parse P (PyStr.strip (py_str v))
        = inl (OverflowError "signed integer is greater than maximum") /\
      forall m, OverflowError "signed integer is greater than maximum" <> ValueError m /\
                OverflowError "signed integer is greater than maximum" <> TypeError m) \/
    (@py_all _ (@is_date P) (map (fun v => CStr (PyStr.strip (py_str v)))
                                 (strs ["99999999999999999999"; "abc"])) = inr true /\
     ((@to_datetime_mixed_col P (map (fun v => CStr (PyStr.strip (py_str v)))
                                     (strs ["99999999999999999999"; "abc"]))
         = inl (OverflowError "signed integer is greater than maximum") /\
       forall m, OverflowError "signed integer is greater than maximum" <> ValueError m) \/
      ((exists m, @to_datetime_mixed_col P (map (fun v => CStr (PyStr.strip (py_str v)))
                                                (strs ["99999999999999999999"; "abc"]))
                  = inl (ValueError m)) /\
       exists v m, In v (strs ["99999999999999999999"; "abc"]) /\
         @to_datetime_default P (CStr (PyStr.strip (py_str v))) = inl m /\
         OverflowError "signed integer is greater than maximum" = ValueError m))))).
Proof.
  intros P.
  assert (Hc : @classify P (mkcol DObject (strs ["99999999999999999999"; "abc"]))
    = inl (OverflowError "signed integer is greater than maximum")) by reflexivity.
  split; [exact Hc|]. exact (@classify_raises_only_on_dates P _ _ Hc).
Defined.

(** A text column the classifier turns into a Boolean column gets a
    boolean at every position: no value becomes [pd.NA]. *)
Theorem classify_text_boolean_total `{Pandas} (c c' : column) :
  dtype_of c = DObject -> classify c = inr c' -> dtype_of c' = DBoolean ->
  forall v, In v (cells c') -> exists b, v = CBool b.
Proof. exact (classify_text_boolean_cells c c'). Qed.

Lemma classify_text_boolean_total_witness :
  @classify Demo.pandas_demo (mkcol DObject (strs [" Yes"; "n"; "TRUE"; "0"]))
    = inr (mkcol DBoolean [CBool true; CBool false; CBool true; CBool false]) /\
  (forall v, In v [CBool true; CBool false; CBool true; CBool false] -> exists b, v = CBool b).
Proof.
  assert (Hc : @classify Demo.pandas_demo (mkcol DObject (strs [" Yes"; "n"; "TRUE"; "0"]))
    = inr (mkcol DBoolean [CBool true; CBool false; CBool true; CBool false])) by reflexivity.
  split; [exact Hc|].
  exact (@classify_text_boolean_total Demo.pandas_demo
           (mkcol DObject (strs [" Yes"; "n"; "TRUE"; "0"]))
           (mkcol DBoolean [CBool true; CBool false; CBool true; CBool false]) eq_refl Hc eq_refl).
Defined.

(** [validate_preview_data] returns the rows unchanged, and it accepts them
    exactly when there is at least one row and any two rows have the same
    set of keys. *)
Theorem validate_preview_data_spec (value : list (list (string * json))) :
  (forall v, validate_preview_data value = inr v -> v = value) /\
  (validate_preview_data value = inr value <->
   value <> [] /\
   forall r1 r2, In r1 value -> In r2 value -> forall k, In k (map fst r1) <-> In k (map fst r2)).
Proof.
  unfold validate_preview_data. destruct value as [|r0 rest].
  { split; [discriminate|]. split; [discriminate|]. intros [H _]. now contradiction H. }
  destruct (forallb _ rest) eqn:E.
  - split; [intros v Hv; now injection Hv|].
    rewrite forallb_forall in E.
    assert (Hr : forall r, In r (r0 :: rest) -> forall k, In k (map fst r) <-> In k (map fst r0)).
    { intros r [<-|Hr] k; [tauto|]. exact (proj1 (same_key_set_iff _ _) (E r Hr) k). }
    split; [|reflexivity]. intros _. split; [discriminate|].
    intros r1 r2 H1 H2 k. rewrite (Hr r1 H1 k), (Hr r2 H2 k). tauto.
  - split; [discriminate|]. split; [discriminate|].
    intros [_ H]. rewrite <- not_true_iff_false in E. exfalso. apply E.
    apply forallb_forall. intros r Hr. apply same_key_set_iff.
    intros k. apply H; simpl; auto.
Qed.

(** [validate_columns] raises "Column information cannot be empty" on an
    empty dict; otherwise it returns the dict unchanged exactly when every
    present, non-empty [inferred_type] is one of [valid_types], and it
    raises naming such a type otherwise.  Of the dtype names [str(dtype)]
    can give, it refuses ["int64"], ["int32"], ["uint64"] and
    ["boolean"]. *)
Theorem validate_columns_spec (value : list (string * option string)) :
  (value = [] -> validate_columns value = inl ColumnsEmpty) /\
  (value <> [] ->
   (validate_columns value = inr value <->
    forall n t, In (n, Some t) value -> t = "" \/ In t valid_types) /\
   (forall t, validate_columns value = inl (InvalidDataType t) ->
      t <> "" /\ ~ In t valid_types /\ exists n, In (n, Some t) value)) /\
  (forall n d, validate_columns [(n, Some (dtype_name d))] = inr [(n, Some (dtype_name d))] <->
               d <> DInt64 /\ d <> DInt32 /\ d <> DUInt64 /\ d <> DBoolean).
Proof.
  split; [intros ->; reflexivity|]. split.
  - intros Hne. unfold validate_columns.
    destruct value as [|x r]; [contradiction|]. split.
    + rewrite <- first_invalid_type_none.
      destruct (first_invalid_type (x :: r)); split; congruence.
    + intros t. destruct (first_invalid_type (x :: r)) eqn:E; [|discriminate].
      intros H. injection H as <-. exact (first_invalid_type_some _ _ E).
  - intros n d. destruct d; cbn; split; intros H; try discriminate;
      repeat split; try discriminate; try reflexivity;
      destruct H as [H1 [H2 [H3 H4]]]; congruence.
Qed.
Section UploadFacts.
Context `{P : Pandas} `{R : Readers}.

Lemma frame_row_names (numpy : bool) (df : frame) (i : nat) :
  map fst (frame_row numpy df i) = map fst df.
Proof.
  unfold frame_row. rewrite map_map. apply map_ext. now intros [n c].
Qed.

End UploadFacts.

(** [ProcessFileView.post] answers 400 only with "No file was uploaded.",
    and exactly when there is no file or its name is empty: an unsupported
    extension never gets its 400 response. *)
Theorem process_file_bad_request `{Pandas} `{Readers} (numpy : bool)
    (file_obj : option upload) (msg : string) :
  process_file numpy file_obj = UploadBadRequest msg <->
  msg = "No file was uploaded." /\
  (file_obj = None \/ exists f, file_obj = Some f /\ upload_name f = "").
Proof.
  unfold process_file. destruct file_obj as [f|].
  - destruct (String.eqb (upload_name f) "") eqn:En.
    + apply String.eqb_eq in En. split.
      * intros Hm. injection Hm as <-. split; [reflexivity|]. right. eauto.
      * intros [-> _]. reflexivity.
    + split.
      * destruct (negb _); [discriminate|].
        destruct (py_bind _ _); discriminate.
      * intros [_ [Hn|[g [Hg Hn]]]]; [discriminate|].
        injection Hg as <-. apply String.eqb_neq in En. contradiction.
  - split.
    + intros Hm. injection Hm as <-. auto.
    + intros [-> _]. reflexivity.
Qed.

(** For a file named [base.ext] whose base name has no [/] and a
    character other than a dot, and whose extension has neither a dot nor
    a [/], the view raises [AttributeError] (evaluating
    [status.HTTP_400_BAD_ERROR]) exactly when [.ext], lower-cased, is not
    [.csv], [.xlsx] or [.xls]; upper-case extensions are accepted. *)
Theorem process_file_extension `{Pandas} `{Readers} (numpy : bool) (f : upload) (b e : string) :
  upload_name f = b ++ "." ++ e ->
  str_existsb (fun c => negb (Ascii.eqb c "."%char)) b = true ->
  str_existsb (Ascii.eqb "/"%char) b = false ->
  str_existsb (Ascii.eqb "."%char) e = false ->
  str_existsb (Ascii.eqb "/"%char) e = false ->
  (process_file numpy (Some f) = UploadRaises status_error <->
   PyStr.mem ("." ++ PyStr.lower e) supported_extensions = false).
Proof.
  intros Hn Hb Hbs He Hes. unfold process_file.
  assert (Hne : String.eqb (upload_name f) "" = false).
  { rewrite Hn. destruct b; [discriminate|reflexivity]. }
  rewrite Hne, Hn, (splitext_simple b e Hb Hbs He Hes). cbn [snd].
  change (PyStr.lower ("." ++ e)) with ("." ++ PyStr.lower e).
  destruct (PyStr.mem ("." ++ PyStr.lower e) supported_extensions); cbn [negb].
  - split; [|discriminate]. destruct (py_bind _ _); discriminate.
  - split; reflexivity.
Qed.

Lemma process_file_extension_witness :
  let f := mkupload "Sales.2024.XLSX" [] in
  upload_name f = "Sales.2024" ++ "." ++ "XLSX" /\
  str_existsb (fun c => negb (Ascii.eqb c "."%char)) "Sales.2024" = true /\
  str_existsb (Ascii.eqb "/"%char) "Sales.2024" = false /\
  str_existsb (Ascii.eqb "."%char) "XLSX" = false /\
  str_existsb (Ascii.eqb "/"%char) "XLSX" = false /\
  (@process_file Demo.pandas_demo DemoFiles.readers_demo false (Some f) = UploadRaises status_error <->
   PyStr.mem ("." ++ PyStr.lower "XLSX") supported_extensions = false).
Proof.
  intros f. repeat (split; [reflexivity|]).
  exact (@process_file_extension Demo.pandas_demo DemoFiles.readers_demo false f
           "Sales.2024" "XLSX" eq_refl eq_refl eq_refl eq_refl eq_refl).
Defined.

(** A file whose non-empty name has no dot (no extension) makes the view
    raise [AttributeError] instead of answering. *)
Theorem process_file_no_extension `{Pandas} `{Readers} (numpy : bool) (f : upload) :
  upload_name f <> "" -> str_existsb (Ascii.eqb "."%char) (upload_name f) = false ->
  process_file numpy (Some f) = UploadRaises status_error.
Proof.
  intros Hne Hd. unfold process_file.
  apply String.eqb_neq in Hne. rewrite Hne, (splitext_no_dot _ Hd). reflexivity.
Qed.

Lemma process_file_no_extension_witness :
  upload_name (mkupload "report" []) <> "" /\
  str_existsb (Ascii.eqb "."%char) (upload_name (mkupload "report" [])) = false /\
  @process_file Demo.pandas_demo DemoFiles.readers_demo true (Some (mkupload "report" []))
    = UploadRaises status_error.
Proof.
  assert (Hne : upload_name (mkupload "report" []) <> "") by discriminate.
  split; [exact Hne|]. split; [reflexivity|].
  exact (@process_file_no_extension Demo.pandas_demo DemoFiles.readers_demo true _ Hne eq_refl).
Defined.

(** A 200 response of [ProcessFileView.post] comes from reading the file
    with [read_csv] for [.csv] (any case) and [read_excel] otherwise, and
    classifying the table; [column_types] lists every column of the file,
    in order, with [str(dtype)] of its classified column; [preview_data]
    has [min(5, rows)] rows, each keyed by every column of the file. *)
Theorem process_file_ok `{Pandas} `{Readers} (numpy : bool) (f : upload)
    (column_types : list (string * string)) (preview_data : list (list (string * json))) :
  process_file numpy (Some f) = UploadOk column_types preview_data ->
  exists df processed_df,
    (if String.eqb (PyStr.lower (snd (splitext (upload_name f)))) ".csv"
     then read_csv f else read_excel f) = inr df /\
    infer_and_convert_data_types df = inr processed_df /\
    column_types = map (fun p => (fst p, dtype_name (dtype_of (snd p)))) processed_df /\
    map fst column_types = map fst df /\
    List.length preview_data = Nat.min 5 (frame_nrows df) /\
    (forall row, In row preview_data -> map fst row = map fst df).
Proof.
  unfold process_file. intros Hok.
  destruct (String.eqb (upload_name f) ""); [discriminate|].
  destruct (negb _); [discriminate|].
  destruct (if String.eqb _ ".csv" then read_csv f else read_excel f) as [e|df] eqn:Er;
    [discriminate|].
  cbn [py_bind] in Hok.
  destruct (infer_and_convert_data_types df) as [e|pdf] eqn:Ei; [discriminate|].
  injection Hok as <- <-.
  pose proof (infer_and_convert_shape df pdf Ei) as Hs.
  assert (Hnames : map fst pdf = map fst df).
  { apply (f_equal (map fst)) in Hs. unfold frame_shape in Hs. now rewrite !map_map in Hs. }
  exists df, pdf. split; [first [exact Er|reflexivity]|]. split; [first [exact Ei|reflexivity]|]. split.
  { apply map_ext. now intros [n c]. }
  split.
  { rewrite map_map. rewrite <- Hnames. apply map_ext. now intros [n c]. }
  split.
  { unfold preview_rows. rewrite length_map, length_seq.
    now rewrite (frame_nrows_shape _ _ Hs). }
  intros row Hrow. unfold preview_rows in Hrow. apply in_map_iff in Hrow as [i [<- _]].
  now rewrite frame_row_names.
Qed.

Lemma process_file_ok_witness :
  let f := mkupload "people.CSV"
             [[("id", CStr "1"); ("ok", CStr "yes")]; [("id", CStr "2"); ("ok", CStr "no")]] in
  @process_file Demo.pandas_demo DemoFiles.readers_demo false (Some f)
    = UploadOk [("id", "Int64"); ("ok", "boolean")]
               [[("id", JStr "1"); ("ok", JStr "True")]; [("id", JStr "2"); ("ok", JStr "False")]] /\
  exists df processed_df,
    (if String.eqb (PyStr.lower (snd (splitext (upload_name f)))) ".csv"
     then Demo.build_frame (upload_rows f) else Demo.build_frame (upload_rows f)) = df /\
    @infer_and_convert_data_types Demo.pandas_demo df = inr processed_df /\
    [("id", "Int64"); ("ok", "boolean")]
      = map (fun p => (fst p, dtype_name (dtype_of (snd p)))) processed_df /\
    map fst [("id", "Int64"); ("ok", "boolean")] = map fst df /\
    List.length [[("id", JStr "1"); ("ok", JStr "True")]; [("id", JStr "2"); ("ok", JStr "False")]]
      = Nat.min 5 (frame_nrows df) /\
    (forall row, In row [[("id", JStr "1"); ("ok", JStr "True")];
                         [("id", JStr "2"); ("ok", JStr "False")]] ->
       map fst row = map fst df).
Proof.
  intros f.
  assert (Hp : @process_file Demo.pandas_demo DemoFiles.readers_demo false (Some f)
    = UploadOk [("id", "Int64"); ("ok", "boolean")]
               [[("id", JStr "1"); ("ok", JStr "True")]; [("id", JStr "2"); ("ok", JStr "False")]])
    by reflexivity.
  split; [exact Hp|].
  destruct (@process_file_ok Demo.pandas_demo DemoFiles.readers_demo false f _ _ Hp)
    as [df [pdf [Hr [Hi [Hc [Hn [Hl Hrow]]]]]]].
  exists df, pdf. split; [|auto].
  cbn [read_csv read_excel DemoFiles.readers_demo] in Hr.
  destruct (String.eqb _ ".csv"); now injection Hr.
Defined.


(** When the classifier turns a text column into an Integer or Float
    column, a value becomes missing ([pd.NA] / [NaN]) exactly when it is a
    missing-value token after stripping: every other value is a number. *)
Theorem classify_numeric_missing_iff_token `{Pandas} (c c' : column) :
  dtype_of c = DObject -> classify c = inr c' ->
  (dtype_of c' = DNInt64 \/ dtype_of c' = DFloat64) ->
  Forall2 (fun v w => is_missing w = true <-> is_na_token (py_str v) = true) (cells c) (cells c').
Proof.
  intros Ho Hc Hd. eapply Forall2_impl; [|exact (classify_numeric_missing c c' Ho Hc Hd)].
  intros v w Hvw. cbv beta in *. rewrite Hvw. tauto.
Qed.

Lemma classify_numeric_missing_iff_token_witness :
  @classify Demo.pandas_demo (mkcol DObject (strs ["1.5"; " N/A "; "-"; "2"]))
    = inr (mkcol DFloat64 [CFloat (mkdec 15 1); CNaN; CNaN; CFloat (mkdec 2 0)]) /\
  Forall2 (fun v w => is_missing w = true <-> is_na_token (py_str v) = true)
    (strs ["1.5"; " N/A "; "-"; "2"]) [CFloat (mkdec 15 1); CNaN; CNaN; CFloat (mkdec 2 0)].
Proof.
  assert (Hc : @classify Demo.pandas_demo (mkcol DObject (strs ["1.5"; " N/A "; "-"; "2"]))
    = inr (mkcol DFloat64 [CFloat (mkdec 15 1); CNaN; CNaN; CFloat (mkdec 2 0)])) by reflexivity.
  split; [exact Hc|].
  exact (@classify_numeric_missing_iff_token Demo.pandas_demo
           (mkcol DObject (strs ["1.5"; " N/A "; "-"; "2"]))
           (mkcol DFloat64 [CFloat (mkdec 15 1); CNaN; CNaN; CFloat (mkdec 2 0)])
           eq_refl Hc (or_intror eq_refl)).
Defined.
